(** * Artifact panel and chat query effect of ai-chat

    A shallow embedding of the state logic of
    [src/components/artifact/artifact.tsx] (component [PureArtifact]) and of
    the one-time query effect of the [Chat] component.

    React state cells become record fields, the SWR cache becomes a finite
    map from request keys to revision lists, and every handler is a function
    from the state of the render it was created in to the state after its
    updates were applied.  An asynchronous mutator runs to completion within
    the event that starts it; how its POST settles and what the clock reads
    are inputs.  Revalidation against the server ([mutateDocuments]) and the
    JSX are outside the model. *)

From Stdlib Require Import ZArith.
From stdpp Require Import base option list strings gmap.

Local Open Scope Z_scope.

(** ** Data model *)

(** [artifactDefinitions] lists four definitions; [ArtifactKind] is the union
    of their [kind] fields. *)
Inductive ArtifactKind := KText | KCode | KImage | KSheet.

(** [UIArtifact["status"]]. *)
Inductive ArtifactStatus := Streaming | Idle.

(** The display mode cell, [useState<"edit" | "diff">]. *)
Inductive Mode := Edit | Diff.

(** The argument of [handleVersionChange]. *)
Inductive VersionChange := Next | Prev | Toggle | Latest.

#[global] Instance ArtifactKind_eq_dec : EqDecision ArtifactKind.
Proof. solve_decision. Defined.
#[global] Instance ArtifactStatus_eq_dec : EqDecision ArtifactStatus.
Proof. solve_decision. Defined.
#[global] Instance Mode_eq_dec : EqDecision Mode.
Proof. solve_decision. Defined.

(** Modelled from the spec: the [Document] row type of [@/lib/db/schema],
    which is imported but not part of the sources at hand.  The spec gives a
    revision record the fields title, content, kind and createdAt; the
    component reads [content] through [?? ""] and a truthiness test, so the
    field is nullable.  [createdAt] is a timestamp in milliseconds. *)
Record Document := mkDocument {
  title : string;
  content : option string;
  kind : ArtifactKind;
  createdAt : Z
}.

#[global] Instance Document_eq_dec : EqDecision Document.
Proof. solve_decision. Defined.

(** [UIArtifact], without [boundingBox]: the box only drives the opening
    animation and no handler below reads it. *)
Record UIArtifact := mkUIArtifact {
  artifactTitle : string;
  documentId : string;
  artifactKind : ArtifactKind;
  artifactContent : string;
  isVisible : bool;
  status : ArtifactStatus
}.

(** The two cells that revision navigation writes:
    [currentVersionIndex] (initially -1) and [mode] (initially "edit"). *)
Record Version := mkVersion {
  currentVersionIndex : Z;
  mode : Mode
}.

(** ** Truthiness of a nullable string

    [!x] on [string | null]: [null] and the empty string are falsy. *)
Definition truthy (s : string) : bool := bool_decide (s ≠ "").

Definition truthy_opt (o : option string) : bool :=
  match o with
  | Some s => truthy s
  | None => false
  end.

(** ** The revision-history request *)

(** The template literal [`/api/document?id=${artifact.documentId}`]. *)
Definition documentKey (id : string) : string := "/api/document?id=" +:+ id.

(** The first argument of [useSWR]: a key, or [null] to suppress the fetch. *)
Definition historyKey (artifact : UIArtifact) : option string :=
  if bool_decide (documentId artifact ≠ "init") && bool_decide (status artifact ≠ Streaming)
  then Some (documentKey (documentId artifact))
  else None.

(** [useSWR(key, fetcher).data]: with a [null] key nothing is requested and
    the data is [undefined]; otherwise it is the cache entry of the key. *)
Definition useSWR (key : option string) (cache : gmap string (list Document))
  : option (list Document) :=
  match key with
  | Some k => cache !! k
  | None => None
  end.

(** The requests the hook may send to the fetcher for this artifact. *)
Definition historyFetches (artifact : UIArtifact) : list string :=
  match historyKey artifact with
  | Some k => [k]
  | None => []
  end.

(** ** Reading a revision *)

(** [documents[index]] for an integer [index]: [undefined] outside
    [0 .. length-1]. *)
Definition at_index (documents : list Document) (index : Z) : option Document :=
  if bool_decide (0 ≤ index) then documents !! Z.to_nat index else None.

Definition getDocumentContentById (documents : option (list Document)) (index : Z)
  : string :=
  match documents with
  | None => ""
  | Some docs =>
      match at_index docs index with
      | None => ""
      | Some d => default "" (content d)
      end
  end.

(** ** Revision navigation *)

Definition historyLength (docs : list Document) : Z := Z.of_nat (length docs).

Definition flipMode (m : Mode) : Mode :=
  match m with
  | Edit => Diff
  | Diff => Edit
  end.

(** [handleVersionChange], called in a render whose cells are [v]; the result
    holds the cells after the queued updates ran. *)
Definition handleVersionChange (documents : option (list Document))
  (type : VersionChange) (v : Version) : Version :=
  match documents with
  | None => v
  | Some docs =>
      match type with
      | Latest => mkVersion (historyLength docs - 1) Edit
      | Toggle => mkVersion (currentVersionIndex v) (flipMode (mode v))
      | Prev =>
          if bool_decide (currentVersionIndex v > 0)
          then mkVersion (currentVersionIndex v - 1) (mode v)
          else v
      | Next =>
          if bool_decide (currentVersionIndex v < historyLength docs - 1)
          then mkVersion (currentVersionIndex v + 1) (mode v)
          else v
      end
  end.

(** A sequence of navigation clicks, each handled in the render that follows
    the previous one. *)
Definition navigate (documents : option (list Document))
  (ops : list VersionChange) (v : Version) : Version :=
  foldl (fun acc type => handleVersionChange documents type acc) v ops.

(** [isCurrentVersion], computed on every render. *)
Definition isCurrentVersion (documents : option (list Document)) (v : Version) : bool :=
  match documents with
  | Some docs =>
      if bool_decide (historyLength docs > 0)
      then bool_decide (currentVersionIndex v = historyLength docs - 1)
      else true
  | None => true
  end.

(** ** The panel state

    The cells of [PureArtifact] that the save path and navigation touch,
    together with the SWR cache shared with [mutate], the single slot of the
    debounced callback, and a log of the POST requests handed to [fetch]. *)

(** [fetch(url, { method: "POST", body: JSON.stringify({ title, content, kind }) })]. *)
Record WriteRequest := mkWriteRequest {
  url : string;
  method : string;
  bodyTitle : string;
  bodyContent : string;
  bodyKind : ArtifactKind
}.

(** How the promise returned by [fetch] settles.  It is awaited without a
    [catch], so a rejection aborts the rest of the mutator. *)
Inductive FetchOutcome := Fulfilled | Rejected.

(** The delay passed to [useDebounceCallback], in milliseconds. *)
Definition debounceDelay : Z := 2000.

Record Panel := mkPanel {
  artifact : UIArtifact;
  cache : gmap string (list Document);
  version : Version;
  document : option Document;
  isContentDirty : bool;
  pending : option (string * Z);
  requests : list WriteRequest
}.

Definition setIsContentDirty (b : bool) (p : Panel) : Panel :=
  mkPanel (artifact p) (cache p) (version p) (document p) b (pending p) (requests p).

Definition setPending (q : option (string * Z)) (p : Panel) : Panel :=
  mkPanel (artifact p) (cache p) (version p) (document p) (isContentDirty p) q
    (requests p).

Definition setVersion (v : Version) (p : Panel) : Panel :=
  mkPanel (artifact p) (cache p) v (document p) (isContentDirty p) (pending p)
    (requests p).

Definition populateCache (key : string) (data : list Document) (p : Panel) : Panel :=
  mkPanel (artifact p) (<[key := data]> (cache p)) (version p) (document p)
    (isContentDirty p) (pending p) (requests p).

Definition post (r : WriteRequest) (p : Panel) : Panel :=
  mkPanel (artifact p) (cache p) (version p) (document p) (isContentDirty p)
    (pending p) (requests p ++ [r]).

(** [documents], the data returned by the [useSWR] call of the component. *)
Definition documents (p : Panel) : option (list Document) :=
  useSWR (historyKey (artifact p)) (cache p).

(** The history that [mutate] hands to the mutator: the cache entry of the
    document's key, whether or not the hook is currently fetching it. *)
Definition cachedHistory (p : Panel) : option (list Document) :=
  cache p !! documentKey (documentId (artifact p)).

(** The body of the POST that a flush of [updatedContent] sends. *)
Definition writeRequest (artifact : UIArtifact) (updatedContent : string) : WriteRequest :=
  mkWriteRequest (documentKey (documentId artifact)) "POST"
    (artifactTitle artifact) updatedContent (artifactKind artifact).

(** [{ ...currentDocument, content: updatedContent, createdAt: new Date() }]. *)
Definition newDocument (currentDocument : Document) (updatedContent : string) (now : Z)
  : Document :=
  mkDocument (title currentDocument) (Some updatedContent) (kind currentDocument) now.

(** ** The flush

    [handleContentChange]: [mutate] runs the mutator on the cached history
    of the key, with [revalidate: false], and stores what it returns.  The
    guard [if (!artifact) return] never fires, [artifact] being an object.
    [net] is how the POST settles and [now] is the clock read by
    [new Date()]. *)
Definition handleContentChange (net : FetchOutcome) (now : Z) (updatedContent : string)
  (p : Panel) : Panel :=
  let key := documentKey (documentId (artifact p)) in
  match cache p !! key with
  | None => p
  | Some currentDocuments =>
      match last currentDocuments with
      | None => setIsContentDirty false p
      | Some currentDocument =>
          if negb (truthy_opt (content currentDocument))
          then setIsContentDirty false p
          else if bool_decide (content currentDocument ≠ Some updatedContent)
          then
            let p1 := post (writeRequest (artifact p) updatedContent) p in
            match net with
            | Rejected => p1
            | Fulfilled =>
                populateCache key
                  (currentDocuments ++ [newDocument currentDocument updatedContent now])
                  (setIsContentDirty false p1)
            end
          else p
      end
  end.

(** ** The debounced flush

    [useDebounceCallback(handleContentChange, 2000)] is a trailing-edge
    debounce: a call replaces the waiting argument and restarts the delay,
    and the callback runs once the delay has passed without another call. *)
Definition debouncedHandleContentChange (updatedContent : string) (p : Panel) : Panel :=
  setPending (Some (updatedContent, debounceDelay)) p.

(** [ms] milliseconds pass without a call to the debounced callback. *)
Definition elapse (net : FetchOutcome) (now : Z) (ms : Z) (p : Panel) : Panel :=
  match pending p with
  | Some (updatedContent, remaining) =>
      if bool_decide (remaining ≤ ms)
      then handleContentChange net now updatedContent (setPending None p)
      else setPending (Some (updatedContent, remaining - ms)) p
  | None => p
  end.

(** [saveContent], the [onSaveContent] callback of the editor. *)
Definition saveContent (net : FetchOutcome) (now : Z) (updatedContent : string)
  (debounce : bool) (p : Panel) : Panel :=
  match document p with
  | Some d =>
      if bool_decide (Some updatedContent ≠ content d)
      then
        let p1 := setIsContentDirty true p in
        if debounce
        then debouncedHandleContentChange updatedContent p1
        else handleContentChange net now updatedContent p1
      else p
  | None => p
  end.

(** ** The effect on [documents]

    The first [useEffect]: when the fetched history is not empty, its last
    record becomes [document], the index moves to it and its content is
    copied into the artifact. *)
Definition setArtifactContent (c : string) (a : UIArtifact) : UIArtifact :=
  mkUIArtifact (artifactTitle a) (documentId a) (artifactKind a) c (isVisible a)
    (status a).

Definition documentsEffect (p : Panel) : Panel :=
  match documents p with
  | Some docs =>
      if bool_decide (historyLength docs > 0)
      then
        match last docs with
        | Some mostRecentDocument =>
            mkPanel
              (setArtifactContent (default "" (content mostRecentDocument)) (artifact p))
              (cache p)
              (mkVersion (historyLength docs - 1) (mode (version p)))
              (Some mostRecentDocument)
              (isContentDirty p) (pending p) (requests p)
        | None => p
        end
      else p
  | None => p
  end.

(** ** Events of a mounted panel *)

Inductive Event :=
  | SaveContent (updatedContent : string) (debounce : bool)
  | Elapse (ms : Z)
  | ChangeVersion (type : VersionChange).

Definition handle (net : FetchOutcome) (now : Z) (ev : Event) (p : Panel) : Panel :=
  match ev with
  | SaveContent updatedContent debounce => saveContent net now updatedContent debounce p
  | Elapse ms => elapse net now ms p
  | ChangeVersion type =>
      setVersion (handleVersionChange (documents p) type (version p)) p
  end.

(** One event and the render that follows it; the effect runs only when its
    dependency [documents] changed. *)
Definition step (net : FetchOutcome) (now : Z) (ev : Event) (p : Panel) : Panel :=
  let p' := handle net now ev p in
  if bool_decide (documents p' = documents p) then p' else documentsEffect p'.

(** A panel as mounted for [artifact] over [cache], after its effects ran:
    index -1, mode "edit", no document, clean. *)
Definition mount (artifact : UIArtifact) (cache : gmap string (list Document)) : Panel :=
  documentsEffect (mkPanel artifact cache (mkVersion (-1) Edit) None false None []).

(** ** The chat component's query effect *)

Module Chat.

(** The user turn built by the effect:
    [{ role: "user", parts: [{ type: "text", text: query }] }]. *)
Inductive Role := User | Assistant | System.

(** A message part; the effect only builds [{ type: "text", text }]. *)
Inductive Part := TextPart (text : string).

Record ChatMessage := mkChatMessage {
  role : Role;
  parts : list Part
}.

(** The turn handed to [sendMessage] for the text [query]. *)
Definition userTurn (query : string) : ChatMessage :=
  mkChatMessage User [TextPart query].

(** [hasAppendedQuery], the address shown by the browser, and the turns
    handed to [sendMessage]. *)
Record Session := mkSession {
  hasAppendedQuery : bool;
  location : string;
  sent : list ChatMessage
}.

(** A freshly mounted component at address [href]. *)
Definition mounted (href : string) : Session := mkSession false href [].

(** The effect of one render pass of chat [id]; [query] is what
    [searchParams.get("query")] returned in that render. *)
Definition queryEffect (id : string) (query : option string) (s : Session) : Session :=
  match query with
  | Some q =>
      if truthy q && negb (hasAppendedQuery s)
      then mkSession true ("/chat/" +:+ id) (sent s ++ [userTurn q])
      else s
  | None => s
  end.

(** Successive render passes, each with the query value its render read. *)
Definition renders (id : string) (queries : list (option string)) (s : Session) : Session :=
  foldl (fun acc query => queryEffect id query acc) s queries.

End Chat.

(** ** What the panel shows *)

(** The line under the title: "Saving changes..." while the flag is up,
    otherwise "Updated ..." from [document.createdAt], otherwise a
    placeholder. *)
Inductive Header := SavingChanges | UpdatedAt (at_ms : Z) | Placeholder.

Definition header (p : Panel) : Header :=
  if isContentDirty p then SavingChanges
  else
    match document p with
    | Some d => UpdatedAt (createdAt d)
    | None => Placeholder
    end.

(** The [content] prop handed to the artifact's editor. *)
Definition displayedContent (p : Panel) : string :=
  if isCurrentVersion (documents p) (version p)
  then artifactContent (artifact p)
  else getDocumentContentById (documents p) (currentVersionIndex (version p)).

(** [<Toolbar>] is rendered under [isCurrentVersion], [<VersionFooter>]
    under its negation. *)
Definition showsToolbar (p : Panel) : bool := isCurrentVersion (documents p) (version p).

Definition showsVersionFooter (p : Panel) : bool :=
  negb (isCurrentVersion (documents p) (version p)).

(** ** Runs *)

(** A run of events, each with the outcome of the POST it may start and the
    clock it may read. *)
Definition run (evs : list (FetchOutcome * Z * Event)) (p : Panel) : Panel :=
  foldl (fun acc e => step e.1.1 e.1.2 e.2 acc) p evs.

(** Successive flushes, each with its outcome, clock and proposed content. *)
Definition flushes (fs : list (FetchOutcome * Z * string)) (p : Panel) : Panel :=
  foldl (fun acc f => handleContentChange f.1.1 f.1.2 f.2 acc) p fs.

(** The history fetch is on for the panel's artifact. *)
Definition fetchEnabled (p : Panel) : Prop :=
  documentId (artifact p) ≠ "init" ∧ status (artifact p) ≠ Streaming.

(** ** The chat transport and its side channels *)

Module Transport.

Section Request.

(** [J] stands for the values a caller may put in [body]; [V] for
    [VisibilityType], declared with the visibility selector. *)
Variables (J V : Type).

(** A field of the request body. *)
Inductive Field :=
  | FString (s : string)
  | FMessage (m : option Chat.ChatMessage)
  | FVisibility (v : V)
  | FCaller (j : J).

(** The fields [prepareSendMessagesRequest] writes before the spread. *)
Definition ownFields (initialChatModel : string) (visibilityType : V)
  (messages : list Chat.ChatMessage) (id : string) : gmap string Field :=
  <["id" := FString id]>
    (<["message" := FMessage (last messages)]>
       (<["selectedChatModel" := FString initialChatModel]>
          (<["selectedVisibilityType" := FVisibility visibilityType]> ∅))).

(** [{ id, message: messages.at(-1), selectedChatModel, selectedVisibilityType,
    ...body }]: the spread comes last, so a key of [body] replaces the field
    of the same name; spreading [undefined] adds nothing. *)
Definition prepareSendMessagesRequest (initialChatModel : string) (visibilityType : V)
  (messages : list Chat.ChatMessage) (id : string) (body : option (gmap string J))
  : gmap string Field :=
  (FCaller <$> default ∅ body) ∪ ownFields initialChatModel visibilityType messages id.

End Request.

Arguments FString {J V} s.
Arguments FMessage {J V} m.
Arguments FVisibility {J V} v.
Arguments FCaller {J V} j.

(** [onData]: [setDataStream((ds) => (ds ? [...ds, dataPart] : []))]. *)
Definition onData {A : Type} (dataPart : A) (ds : option (list A)) : option (list A) :=
  match ds with
  | Some parts => Some (parts ++ [dataPart])
  | None => Some []
  end.

(** Data parts arriving one after the other. *)
Definition receive {A : Type} (dataParts : list A) (ds : option (list A))
  : option (list A) :=
  foldl (fun acc dataPart => onData dataPart acc) ds dataParts.

(** The key of the votes request:
    [messages.length >= 2 ? `/api/vote?chatId=${id}` : null]. *)
Definition votesKey {M : Type} (id : string) (messages : list M) : option string :=
  if bool_decide (2 ≤ length messages)%nat then Some ("/api/vote?chatId=" +:+ id) else None.

End Transport.

(** ** The desktop layout *)

Module Layout.

(** Sizes given to the two [Panel]s, in percent. *)
Definition chatDefaultSize : Z := 60.
Definition chatMinSize : Z := 30.
Definition artifactDefaultSize : Z := 0.
Definition artifactMaxSize : Z := 70.

(** The cells the panel callbacks write: [hasBeenExpanded], the sidebar's
    [open] and the shared artifact. *)
Record Desktop := mkDesktop {
  hasBeenExpanded : bool;
  sidebarOpen : bool;
  shared : UIArtifact
}.

Definition getMinSize (d : Desktop) : Z := if hasBeenExpanded d then 10 else 50.

Definition hide (a : UIArtifact) : UIArtifact :=
  mkUIArtifact (artifactTitle a) (documentId a) (artifactKind a) (artifactContent a)
    false (status a).

(** [onCollapse]: [setOpen(true)] and [isVisible: false]. *)
Definition onCollapse (d : Desktop) : Desktop :=
  mkDesktop (hasBeenExpanded d) true (hide (shared d)).

(** [onExpand]: [setOpen(false)] and [setHasBeenExpanded(true)]. *)
Definition onExpand (d : Desktop) : Desktop :=
  mkDesktop true false (shared d).

(** The callbacks the panel library may invoke. *)
Inductive Callback := Collapse | Expand.

#[global] Instance Callback_eq_dec : EqDecision Callback.
Proof. solve_decision. Defined.

Definition invoke (c : Callback) (d : Desktop) : Desktop :=
  match c with
  | Collapse => onCollapse d
  | Expand => onExpand d
  end.

Definition invokeAll (cs : list Callback) (d : Desktop) : Desktop :=
  foldl (fun acc c => invoke c acc) d cs.

End Layout.

(** ** Vocabulary of the statements *)

(** The selected index points into the history. *)
Definition indexInRange (docs : list Document) (v : Version) : Prop :=
  0 ≤ currentVersionIndex v ≤ historyLength docs - 1.

(** The POST requests made between two states of the panel. *)
Definition issued (before after : Panel) : list WriteRequest :=
  drop (length (requests before)) (requests after).

(** The number of revisions cached for the panel's document (0 when the
    cache has no entry for it). *)
Definition cachedLength (p : Panel) : Z :=
  match cachedHistory p with
  | Some docs => historyLength docs
  | None => 0
  end.

(** [p'] differs from [p] by revisions appended to the cached history of
    the same document and requests appended to the log, no more revisions
    than requests; under [ok] the appended revisions hold exactly the
    contents posted, in order. *)
Definition extends (ok : Prop) (p p' : Panel) : Prop :=
  ∃ added posted,
    cachedHistory p' = (λ docs, docs ++ added) <$> cachedHistory p
    ∧ requests p' = requests p ++ posted
    ∧ (length added ≤ length posted)%nat
    ∧ (ok → content <$> added = (Some ∘ bodyContent) <$> posted)
    ∧ Forall (λ r, url r = documentKey (documentId (artifact p)) ∧ method r = "POST") posted
    ∧ documentId (artifact p') = documentId (artifact p)
    ∧ status (artifact p') = status (artifact p).

(** The panel selects a revision of the history its hook returned. *)
Definition wellSelected (p : Panel) : Prop :=
  ∃ docs, documents p = Some docs ∧ indexInRange docs (version p).

(** The panel is at rest on a fetched history [docs] that ends in [d]:
    the fetch is on, [document] is [d] and no debounced call is waiting. *)
Definition settledOn (docs : list Document) (d : Document) (p : Panel) : Prop :=
  fetchEnabled p ∧ cachedHistory p = Some docs ∧ last docs = Some d
  ∧ document p = Some d ∧ pending p = None.

(** Ticks of the clock as events. *)
Definition ticks (ts : list (FetchOutcome * Z * Z)) : list (FetchOutcome * Z * Event) :=
  (λ t, (t.1.1, t.1.2, Elapse t.2)) <$> ts.

(** ** Sample data *)

Definition essay : UIArtifact := mkUIArtifact "Essay" "doc-1" KText "" true Idle.

Definition revision (c : option string) (at_ms : Z) : Document :=
  mkDocument "Essay" c KText at_ms.

(** A panel showing [essay] whose cached history is [docs]; [document] is
    the cell value, [dirty] the flag. *)
Definition essayPanel (docs : list Document) (current : option Document) (dirty : bool)
  : Panel :=
  mkPanel essay {[ documentKey "doc-1" := docs ]}
    (mkVersion (historyLength docs - 1) Edit) current dirty None [].

Definition draft : Document := revision (Some "draft") 0.

Definition threeRevisions : list Document :=
  [revision (Some "A") 0; revision (Some "B") 1; revision (Some "C") 2].

Definition emptyCache : gmap string (list Document) := {[ documentKey "doc-1" := [] ]}.

Definition draftCache : gmap string (list Document) :=
  {[ documentKey "doc-1" := [draft] ]}.

(** * Properties *)

(** ** Revision navigation *)

Section Navigation.

Variable docs : list Document.

Lemma handleVersionChange_in_range (type : VersionChange) (v : Version) :
  indexInRange docs v → indexInRange docs (handleVersionChange (Some docs) type v).
Proof.
  unfold indexInRange. intros Hv.
  destruct type; simpl.
  - case_bool_decide; simpl; lia.
  - case_bool_decide; simpl; lia.
  - exact Hv.
  - lia.
Qed.

Lemma navigate_in_range (ops : list VersionChange) :
  ∀ v, indexInRange docs v → indexInRange docs (navigate (Some docs) ops v).
Proof.
  induction ops as [|type ops IH]; intros v Hv; [exact Hv|].
  apply IH. by apply handleVersionChange_in_range.
Qed.

Lemma prev_at_first (m : Mode) :
  handleVersionChange (Some docs) Prev (mkVersion 0 m) = mkVersion 0 m.
Proof. reflexivity. Qed.

Lemma next_at_last (m : Mode) :
  handleVersionChange (Some docs) Next (mkVersion (historyLength docs - 1) m)
  = mkVersion (historyLength docs - 1) m.
Proof.
  simpl. case_bool_decide; [lia | reflexivity].
Qed.

End Navigation.

(** With no history, or an empty one, every index counts as current. *)
Lemma isCurrentVersion_without_history (v : Version) :
  isCurrentVersion None v = true ∧ isCurrentVersion (Some []) v = true.
Proof. by split. Qed.

(** Before the history has been fetched ([documents] is [undefined]) the
    handler returns at once, whatever the operation. *)
Lemma handleVersionChange_unloaded (type : VersionChange) (v : Version) :
  handleVersionChange None type v = v.
Proof. reflexivity. Qed.

Lemma flipMode_involutive (m : Mode) : flipMode (flipMode m) = m.
Proof. by destruct m. Qed.

Lemma flipMode_changes (m : Mode) : flipMode m ≠ m.
Proof. by destruct m. Qed.

(** C3: over a history [docs], any sequence of prev / next / toggle / latest
    started at an index within [0, historyLength-1] ends at an index within
    [0, historyLength-1]; prev at index 0 and next at index historyLength-1
    return the state they were given. *)
Theorem navigation_keeps_index_in_range
  (docs : list Document) (ops : list VersionChange) (v : Version) (m : Mode) :
  indexInRange docs v →
  indexInRange docs (navigate (Some docs) ops v)
  ∧ handleVersionChange (Some docs) Prev (mkVersion 0 m) = mkVersion 0 m
  ∧ handleVersionChange (Some docs) Next (mkVersion (historyLength docs - 1) m)
    = mkVersion (historyLength docs - 1) m.
Proof.
  intros Hv. split; [by apply navigate_in_range|].
  split; [apply prev_at_first | apply next_at_last].
Qed.

(** C7: over a history [docs], from any index and any mode, latest selects
    index historyLength-1 and mode "edit". *)
Theorem latest_selects_last_revision_in_edit_mode
  (docs : list Document) (index : Z) (m : Mode) :
  let v' := handleVersionChange (Some docs) Latest (mkVersion index m) in
  currentVersionIndex v' = historyLength docs - 1 ∧ mode v' = Edit.
Proof. by split. Qed.

(** C8: toggle keeps the selected index; over a history it turns "edit" into
    "diff" and "diff" into "edit"; two toggles in a row give back the state
    they started from. *)
Theorem toggle_flips_mode_only
  (documents : option (list Document)) (docs : list Document) (v : Version) :
  currentVersionIndex (handleVersionChange documents Toggle v) = currentVersionIndex v
  ∧ mode (handleVersionChange (Some docs) Toggle v) = flipMode (mode v)
  ∧ mode (handleVersionChange (Some docs) Toggle v) ≠ mode v
  ∧ handleVersionChange documents Toggle (handleVersionChange documents Toggle v) = v.
Proof.
  destruct v as [i m].
  split; [by destruct documents|].
  split; [reflexivity|].
  split; [apply flipMode_changes|].
  destruct documents; simpl; [|reflexivity].
  by rewrite flipMode_involutive.
Qed.

(** ** The history request *)

Lemma historyKey_enabled (a : UIArtifact) :
  documentId a ≠ "init" → status a ≠ Streaming →
  historyKey a = Some (documentKey (documentId a)).
Proof.
  intros Hid Hst. unfold historyKey.
  by rewrite !bool_decide_eq_true_2.
Qed.

Lemma historyKey_suppressed (a : UIArtifact) :
  documentId a = "init" ∨ status a = Streaming → historyKey a = None.
Proof.
  intros [Hid|Hst]; unfold historyKey.
  - rewrite (bool_decide_eq_false_2 (documentId a ≠ "init")); [reflexivity|].
    intros Hne. by apply Hne.
  - rewrite (bool_decide_eq_false_2 (status a ≠ Streaming)).
    + by rewrite andb_false_r.
    + intros Hne. by apply Hne.
Qed.

Lemma historyKey_cases (a : UIArtifact) :
  (documentId a = "init" ∨ status a = Streaming) ∧ historyKey a = None
  ∨ (documentId a ≠ "init" ∧ status a ≠ Streaming)
    ∧ historyKey a = Some (documentKey (documentId a)).
Proof.
  destruct (decide (documentId a = "init")) as [Hid|Hid].
  { left. split; [by left | apply historyKey_suppressed; by left]. }
  destruct (decide (status a = Streaming)) as [Hst|Hst].
  { left. split; [by right | apply historyKey_suppressed; by right]. }
  right. split; [done | by apply historyKey_enabled].
Qed.

(** C6: the request for the revision history has no key, sends nothing and
    yields no data exactly when the document id is "init" or the artifact is
    streaming; otherwise its key is the document's address. *)
Theorem history_fetch_suppressed_iff (a : UIArtifact) :
  (historyKey a = None ↔ documentId a = "init" ∨ status a = Streaming)
  ∧ (historyFetches a = [] ↔ documentId a = "init" ∨ status a = Streaming)
  ∧ (documentId a = "init" ∨ status a = Streaming →
     ∀ cache, useSWR (historyKey a) cache = None)
  ∧ (documentId a ≠ "init" ∧ status a ≠ Streaming →
     historyKey a = Some (documentKey (documentId a))
     ∧ historyFetches a = [documentKey (documentId a)]).
Proof.
  unfold historyFetches.
  destruct (historyKey_cases a) as [[Hoff ->]|[[Hid Hst] ->]].
  - split; [by split|].
    split; [by split|].
    split; [done|].
    intros [Hid Hst]. destruct Hoff; contradiction.
  - assert (¬ (documentId a = "init" ∨ status a = Streaming)) as Hon
      by (intros [?|?]; contradiction).
    split; [split; [done | by intros ?]|].
    split; [split; [done | by intros ?]|].
    split; [by intros ? | done].
Qed.

(** ** Reading a revision *)

Lemma at_index_out_of_range (docs : list Document) (index : Z) :
  index < 0 ∨ historyLength docs ≤ index → at_index docs index = None.
Proof.
  unfold at_index, historyLength. intros H.
  case_bool_decide; [|reflexivity].
  apply lookup_ge_None. lia.
Qed.

Lemma at_index_in_range (docs : list Document) (index : Z) :
  0 ≤ index < historyLength docs → is_Some (at_index docs index).
Proof.
  unfold at_index, historyLength. intros H.
  rewrite bool_decide_eq_true_2 by lia.
  apply lookup_lt_is_Some. lia.
Qed.

(** C9: [getDocumentContentById] answers for every integer index, and the
    answer is the empty string when there is no history, when the index is
    outside it, or when the record's content is null. *)
Theorem getDocumentContentById_defaults_to_empty
  (documents : option (list Document)) (index : Z) :
  documents = None
  ∨ (∃ docs, documents = Some docs ∧ (index < 0 ∨ historyLength docs ≤ index))
  ∨ (∃ docs d, documents = Some docs ∧ at_index docs index = Some d ∧ content d = None) →
  getDocumentContentById documents index = "".
Proof.
  intros [->|[(docs & -> & Hout)|(docs & d & -> & Hd & Hnull)]]; simpl.
  - reflexivity.
  - by rewrite at_index_out_of_range.
  - by rewrite Hd, Hnull.
Qed.

(** Inside the history the stored content is returned. *)
Lemma getDocumentContentById_stored (docs : list Document) (index : Z) (d : Document)
  (s : string) :
  at_index docs index = Some d → content d = Some s →
  getDocumentContentById (Some docs) index = s.
Proof. intros Hd Hs. simpl. by rewrite Hd, Hs. Qed.

(** ** The flush *)

Lemma truthy_opt_false (o : option string) :
  truthy_opt o = false ↔ o = None ∨ o = Some "".
Proof.
  destruct o as [s|]; simpl; unfold truthy.
  - rewrite bool_decide_eq_false. split.
    + intros Hs. right. f_equal. by apply dec_stable.
    + intros [?|[= ->]]; [done | by intros ?].
  - split; [by left | done].
Qed.

Lemma issued_refl (p : Panel) : issued p p = [].
Proof. unfold issued. by rewrite drop_all. Qed.

Lemma issued_setIsContentDirty (b : bool) (p : Panel) :
  issued p (setIsContentDirty b p) = [].
Proof. apply (issued_refl p). Qed.

Lemma issued_post (r : WriteRequest) (p : Panel) : issued p (post r p) = [r].
Proof. unfold issued. simpl. by rewrite drop_app_length. Qed.

Section Flush.

Variables (net : FetchOutcome) (now : Z) (updatedContent : string) (p : Panel).

Let key : string := documentKey (documentId (artifact p)).
Let request : WriteRequest := writeRequest (artifact p) updatedContent.

(** The four ways through the mutator, as equations. *)

Lemma handleContentChange_no_cache :
  cachedHistory p = None → handleContentChange net now updatedContent p = p.
Proof. unfold cachedHistory, handleContentChange. by intros ->. Qed.

Lemma handleContentChange_nothing_persisted (docs : list Document) :
  cachedHistory p = Some docs →
  (last docs = None ∨ ∃ d, last docs = Some d ∧ truthy_opt (content d) = false) →
  handleContentChange net now updatedContent p = setIsContentDirty false p.
Proof.
  unfold cachedHistory, handleContentChange. intros -> [->|(d & -> & ->)]; done.
Qed.

Lemma handleContentChange_unchanged (docs : list Document) (d : Document) :
  cachedHistory p = Some docs → last docs = Some d →
  truthy_opt (content d) = true → content d = Some updatedContent →
  handleContentChange net now updatedContent p = p.
Proof.
  unfold cachedHistory, handleContentChange. intros -> -> -> Heq. simpl.
  by rewrite bool_decide_eq_false_2 by (by intros ?).
Qed.

Lemma handleContentChange_changed (docs : list Document) (d : Document) :
  cachedHistory p = Some docs → last docs = Some d →
  truthy_opt (content d) = true → content d ≠ Some updatedContent →
  handleContentChange net now updatedContent p
  = match net with
    | Rejected => post request p
    | Fulfilled =>
        populateCache key (docs ++ [newDocument d updatedContent now])
          (setIsContentDirty false (post request p))
    end.
Proof.
  unfold cachedHistory, handleContentChange. intros -> -> -> Hne. simpl.
  by rewrite bool_decide_eq_true_2.
Qed.

(** A flush posts at most the one request for [updatedContent]. *)
Lemma handleContentChange_issued :
  issued p (handleContentChange net now updatedContent p) = []
  ∨ issued p (handleContentChange net now updatedContent p) = [request].
Proof.
  destruct (cachedHistory p) as [docs|] eqn:Hc.
  2: { left. rewrite handleContentChange_no_cache by done. apply issued_refl. }
  destruct (last docs) as [d|] eqn:Hl.
  2: { left. rewrite (handleContentChange_nothing_persisted docs) by auto.
       apply issued_setIsContentDirty. }
  destruct (truthy_opt (content d)) eqn:Ht.
  2: { left. rewrite (handleContentChange_nothing_persisted docs) by eauto.
       apply issued_setIsContentDirty. }
  destruct (decide (content d = Some updatedContent)) as [Heq|Hne].
  { left. rewrite (handleContentChange_unchanged docs d) by done. apply issued_refl. }
  right. rewrite (handleContentChange_changed docs d) by done.
  destruct net; apply issued_post.
Qed.

(** A request is posted only past both guards and the comparison. *)
Lemma handleContentChange_issued_inv :
  issued p (handleContentChange net now updatedContent p) ≠ [] →
  ∃ docs d, cachedHistory p = Some docs ∧ last docs = Some d
    ∧ truthy_opt (content d) = true ∧ content d ≠ Some updatedContent.
Proof.
  intros Hw.
  destruct (cachedHistory p) as [docs|] eqn:Hc.
  2: { rewrite handleContentChange_no_cache in Hw by done.
       by rewrite issued_refl in Hw. }
  destruct (last docs) as [d|] eqn:Hl.
  2: { rewrite (handleContentChange_nothing_persisted docs) in Hw by auto.
       by rewrite issued_setIsContentDirty in Hw. }
  destruct (truthy_opt (content d)) eqn:Ht.
  2: { rewrite (handleContentChange_nothing_persisted docs) in Hw by eauto.
       by rewrite issued_setIsContentDirty in Hw. }
  destruct (decide (content d = Some updatedContent)) as [Heq|Hne].
  { rewrite (handleContentChange_unchanged docs d) in Hw by done.
    by rewrite issued_refl in Hw. }
  by exists docs, d.
Qed.

End Flush.

Lemma cachedHistory_populateCache (data : list Document) (p : Panel) :
  cachedHistory (populateCache (documentKey (documentId (artifact p))) data p)
  = Some data.
Proof. unfold cachedHistory, populateCache. simpl. apply lookup_insert_eq. Qed.

Lemma historyLength_snoc (docs : list Document) (d : Document) :
  historyLength (docs ++ [d]) = historyLength docs + 1.
Proof. unfold historyLength. rewrite length_app. simpl. lia. Qed.

(** In the branch that compares equal the mutator returns the history as it
    is and calls no setter: the flag keeps the value it had. *)
Lemma flush_of_unchanged_content_keeps_flag
  (net : FetchOutcome) (now : Z) (updatedContent : string) (p : Panel)
  (docs : list Document) (d : Document) :
  cachedHistory p = Some docs → last docs = Some d →
  updatedContent ≠ "" → content d = Some updatedContent →
  isContentDirty (handleContentChange net now updatedContent p) = isContentDirty p.
Proof.
  intros Hc Hl Hne Heq.
  rewrite (handleContentChange_unchanged net now updatedContent p docs d); try done.
  rewrite Heq. simpl. unfold truthy. by rewrite bool_decide_eq_true_2.
Qed.

(** A rejected POST: the request went out, but the setter and the append
    that follow the [await] are not reached. *)
Lemma flush_rejected_keeps_flag_and_history
  (now : Z) (updatedContent : string) (p : Panel) (docs : list Document) (d : Document) :
  cachedHistory p = Some docs → last docs = Some d →
  truthy_opt (content d) = true → content d ≠ Some updatedContent →
  issued p (handleContentChange Rejected now updatedContent p)
  = [writeRequest (artifact p) updatedContent]
  ∧ isContentDirty (handleContentChange Rejected now updatedContent p) = isContentDirty p
  ∧ cachedHistory (handleContentChange Rejected now updatedContent p) = Some docs.
Proof.
  intros Hc Hl Ht Hne.
  rewrite (handleContentChange_changed _ _ _ _ docs d Hc Hl Ht Hne).
  split; [apply issued_post|]. split; [reflexivity | exact Hc].
Qed.

(** C10: when the cached history has no latest record, or that record's
    content is null or empty, a flush of any proposed content clears the
    dirty flag, posts nothing and leaves the cached history as it was. *)
Theorem flush_with_nothing_persisted_drops_edit
  (net : FetchOutcome) (now : Z) (updatedContent : string) (p : Panel)
  (docs : list Document) :
  cachedHistory p = Some docs →
  (last docs = None
   ∨ ∃ d, last docs = Some d ∧ (content d = None ∨ content d = Some "")) →
  isContentDirty (handleContentChange net now updatedContent p) = false
  ∧ issued p (handleContentChange net now updatedContent p) = []
  ∧ cachedHistory (handleContentChange net now updatedContent p) = Some docs.
Proof.
  intros Hc Hguard.
  rewrite (handleContentChange_nothing_persisted net now updatedContent p docs Hc).
  - split; [reflexivity|]. split; [apply issued_setIsContentDirty | exact Hc].
  - destruct Hguard as [Hl|(d & Hl & Hd)]; [by left|].
    right. exists d. split; [exact Hl|]. by apply truthy_opt_false.
Qed.

(** C4: when a flush posts a write and the POST is fulfilled, the proposed
    content differed from the content of the latest cached record, the
    cached history afterwards is the one before followed by one more record,
    and that record's content is the proposed content. *)
Theorem flush_write_appends_one_revision
  (now : Z) (updatedContent : string) (p : Panel) :
  issued p (handleContentChange Fulfilled now updatedContent p) ≠ [] →
  ∃ docs d docs' d',
    cachedHistory p = Some docs
    ∧ last docs = Some d
    ∧ content d ≠ Some updatedContent
    ∧ cachedHistory (handleContentChange Fulfilled now updatedContent p) = Some docs'
    ∧ docs' = docs ++ [d']
    ∧ historyLength docs' = historyLength docs + 1
    ∧ last docs' = Some d'
    ∧ content d' = Some updatedContent.
Proof.
  intros Hw.
  destruct (handleContentChange_issued_inv _ _ _ _ Hw) as (docs & d & Hc & Hl & Ht & Hne).
  exists docs, d, (docs ++ [newDocument d updatedContent now]),
    (newDocument d updatedContent now).
  rewrite (handleContentChange_changed _ _ _ _ docs d Hc Hl Ht Hne).
  split; [exact Hc|]. split; [exact Hl|]. split; [exact Hne|].
  split; [apply (cachedHistory_populateCache _ (setIsContentDirty false (post _ p)))|].
  split; [reflexivity|].
  split; [apply historyLength_snoc|].
  split; [apply last_snoc | reflexivity].
Qed.

(** C1 (amended): over a cached history whose latest record has non-empty
    content, a flush of content equal to it posts nothing and leaves the
    history as it is; a flush of different content posts one request that
    carries the artifact's title, the proposed content and the artifact's
    kind, and clears the dirty flag once the POST is fulfilled.  When the
    cache holds no history, or its latest record is missing or has null or
    empty content, a flush posts nothing, whatever content is proposed. *)
Theorem flush_writes_iff_content_differs
  (net : FetchOutcome) (now : Z) (updatedContent : string) (p : Panel) :
  (cachedHistory p = None
   ∨ (∃ docs, cachedHistory p = Some docs
        ∧ (last docs = None
           ∨ ∃ d, last docs = Some d ∧ (content d = None ∨ content d = Some ""))) →
   issued p (handleContentChange net now updatedContent p) = [])
  ∧ (∀ docs d persisted,
       cachedHistory p = Some docs → last docs = Some d →
       content d = Some persisted → persisted ≠ "" →
       (persisted = updatedContent →
          issued p (handleContentChange net now updatedContent p) = []
          ∧ cachedHistory (handleContentChange net now updatedContent p) = Some docs)
       ∧ (persisted ≠ updatedContent →
          ∃ r, issued p (handleContentChange net now updatedContent p) = [r]
            ∧ bodyTitle r = artifactTitle (artifact p)
            ∧ bodyContent r = updatedContent
            ∧ bodyKind r = artifactKind (artifact p)
            ∧ (net = Fulfilled →
               isContentDirty (handleContentChange net now updatedContent p) = false))).
Proof.
  split.
  - intros [Hc|(docs & Hc & Hguard)].
    + rewrite handleContentChange_no_cache by done. apply issued_refl.
    + rewrite (handleContentChange_nothing_persisted _ _ _ _ docs Hc).
      * apply issued_setIsContentDirty.
      * destruct Hguard as [Hl|(d & Hl & Hd)]; [by left|].
        right. exists d. split; [exact Hl|]. by apply truthy_opt_false.
  - intros docs d persisted Hc Hl Hd Hne.
    assert (truthy_opt (content d) = true) as Ht.
    { rewrite Hd. simpl. unfold truthy. by rewrite bool_decide_eq_true_2. }
    split.
    + intros ->.
      rewrite (handleContentChange_unchanged _ _ _ _ docs d) by done.
      split; [apply issued_refl | exact Hc].
    + intros Hdiff.
      assert (content d ≠ Some updatedContent) as Hcd by (rewrite Hd; congruence).
      rewrite (handleContentChange_changed _ _ _ _ docs d Hc Hl Ht Hcd).
      exists (writeRequest (artifact p) updatedContent).
      split; [destruct net; apply issued_post|].
      do 3 (split; [reflexivity|]).
      by intros ->.
Qed.

(** ** Editing through [saveContent] and the debounce *)

Section Mounted.

Variables (a : UIArtifact) (cache0 : gmap string (list Document)).

Let key : string := documentKey (documentId a).

(** A panel mounted over a history that is absent or empty keeps the
    initial cells: no document, index -1. *)
Lemma mount_empty_history :
  cache0 !! key = None ∨ cache0 !! key = Some [] →
  mount a cache0 = mkPanel a cache0 (mkVersion (-1) Edit) None false None [].
Proof.
  intros Hc. unfold mount, documentsEffect, documents, useSWR. simpl.
  destruct (historyKey_cases a) as [[_ ->]|[_ ->]]; [reflexivity|].
  fold key. by destruct Hc as [->| ->].
Qed.

(** Mounted over a fetched history that ends in [d], the panel selects [d]. *)
Lemma mount_fetched_history (docs : list Document) (d : Document) :
  documentId a ≠ "init" → status a ≠ Streaming →
  cache0 !! key = Some docs → last docs = Some d →
  mount a cache0
  = mkPanel (setArtifactContent (default "" (content d)) a) cache0
      (mkVersion (historyLength docs - 1) Edit) (Some d) false None [].
Proof.
  intros Hid Hst Hc Hl. unfold mount, documentsEffect, documents, useSWR. simpl.
  rewrite historyKey_enabled by done. fold key. rewrite Hc, Hl.
  rewrite bool_decide_eq_true_2; [reflexivity|].
  unfold historyLength. destruct docs; [done | simpl; lia].
Qed.

End Mounted.

Lemma historyKey_setArtifactContent (c : string) (a : UIArtifact) :
  historyKey (setArtifactContent c a) = historyKey a.
Proof. reflexivity. Qed.

Lemma snoc_ne {A : Type} (l : list A) (x : A) : l ++ [x] ≠ l.
Proof.
  intros Heq. apply (f_equal length) in Heq.
  rewrite length_app in Heq. simpl in Heq. lia.
Qed.

(** Over an absent or empty history an edit changes nothing, debounced or
    not, and no later tick of the clock does. *)
Lemma edit_on_empty_history_is_ignored
  (a : UIArtifact) (cache0 : gmap string (list Document))
  (net net' : FetchOutcome) (now now' ms : Z) (updatedContent : string)
  (debounce : bool) :
  cache0 !! documentKey (documentId a) = None
  ∨ cache0 !! documentKey (documentId a) = Some [] →
  step net' now' (Elapse ms) (step net now (SaveContent updatedContent debounce)
    (mount a cache0))
  = mount a cache0.
Proof.
  intros Hc. rewrite (mount_empty_history a cache0 Hc).
  unfold step at 2. simpl. rewrite bool_decide_eq_true_2 by done.
  unfold step. simpl. by rewrite bool_decide_eq_true_2.
Qed.

Lemma elapse_due (net : FetchOutcome) (now ms remaining : Z) (updatedContent : string)
  (p : Panel) :
  pending p = Some (updatedContent, remaining) → remaining ≤ ms →
  elapse net now ms p = handleContentChange net now updatedContent (setPending None p).
Proof.
  intros Hp Hr. unfold elapse. rewrite Hp. by rewrite bool_decide_eq_true_2.
Qed.

Lemma documents_enabled (p : Panel) :
  documentId (artifact p) ≠ "init" → status (artifact p) ≠ Streaming →
  documents p = cachedHistory p.
Proof.
  intros Hid Hst. unfold documents, cachedHistory.
  by rewrite historyKey_enabled.
Qed.

Lemma step_changes_documents (net : FetchOutcome) (now : Z) (ev : Event) (p : Panel) :
  documents (handle net now ev p) ≠ documents p →
  step net now ev p = documentsEffect (handle net now ev p).
Proof. intros Hne. unfold step. by rewrite bool_decide_eq_false_2. Qed.

Lemma step_keeps_documents (net : FetchOutcome) (now : Z) (ev : Event) (p : Panel) :
  documents (handle net now ev p) = documents p →
  step net now ev p = handle net now ev p.
Proof. intros Hne. unfold step. by rewrite bool_decide_eq_true_2. Qed.


Lemma documentsEffect_requests (p : Panel) :
  requests (documentsEffect p) = requests p.
Proof.
  unfold documentsEffect. destruct (documents p) as [docs|]; [|reflexivity].
  case_bool_decide; [|reflexivity]. by destruct (last docs).
Qed.

Lemma documentsEffect_isContentDirty (p : Panel) :
  isContentDirty (documentsEffect p) = isContentDirty p.
Proof.
  unfold documentsEffect. destruct (documents p) as [docs|]; [|reflexivity].
  case_bool_decide; [|reflexivity]. by destruct (last docs).
Qed.

Lemma documentsEffect_cachedHistory (p : Panel) :
  cachedHistory (documentsEffect p) = cachedHistory p.
Proof.
  unfold documentsEffect. destruct (documents p) as [docs|]; [|reflexivity].
  case_bool_decide; [|reflexivity]. by destruct (last docs).
Qed.

(** The flush that the debounce releases after an edit of a fetched history. *)
Lemma flush_after_edit (a : UIArtifact) (cache0 : gmap string (list Document))
  (now' : Z) (updatedContent persisted : string) (docs : list Document)
  (d : Document) (v : Version) :
       documentId a ≠ "init" → status a ≠ Streaming →
       cache0 !! documentKey (documentId a) = Some docs → last docs = Some d →
       content d = Some persisted → persisted ≠ "" → persisted ≠ updatedContent →
  let p1 := mkPanel (setArtifactContent persisted a) cache0 v (Some d) true
              (Some (updatedContent, debounceDelay)) [] in
  let p2 := step Fulfilled now' (Elapse debounceDelay) p1 in
  requests p2 = [writeRequest a updatedContent]
       ∧ cachedHistory p2 = Some (docs ++ [newDocument d updatedContent now'])
       ∧ isContentDirty p2 = false.
Proof.
  intros Hid Hst Hc Hl Hd Hne Hdiff p1 p2.
  assert (handle Fulfilled now' (Elapse debounceDelay) p1
          = populateCache (documentKey (documentId a))
              (docs ++ [newDocument d updatedContent now'])
              (setIsContentDirty false
                 (post (writeRequest a updatedContent) (setPending None p1)))) as Hh.
  { unfold handle. rewrite (elapse_due _ _ _ debounceDelay updatedContent) by done.
    rewrite (handleContentChange_changed _ _ _ _ docs d); try done.
    - rewrite Hd. simpl. unfold truthy. by rewrite bool_decide_eq_true_2.
    - rewrite Hd. congruence. }
  unfold p2. rewrite step_changes_documents.
  - rewrite documentsEffect_requests, documentsEffect_cachedHistory,
      documentsEffect_isContentDirty, Hh.
    split; [reflexivity|]. split; [|reflexivity].
    apply (cachedHistory_populateCache _ (setIsContentDirty false (post _ (setPending None p1)))).
  - rewrite Hh, !documents_enabled by done.
    rewrite (cachedHistory_populateCache _ (setIsContentDirty false (post _ (setPending None p1)))).
    unfold cachedHistory. simpl. rewrite Hc.
    intros [= Heq]. by apply snoc_ne in Heq.
Qed.


(** The edit itself, on a panel mounted over a fetched history. *)
Lemma edit_after_mount (a : UIArtifact) (cache0 : gmap string (list Document))
  (net : FetchOutcome) (now : Z) (updatedContent persisted : string)
  (docs : list Document) (d : Document) :
  documentId a ≠ "init" → status a ≠ Streaming →
  cache0 !! documentKey (documentId a) = Some docs → last docs = Some d →
  content d = Some persisted → persisted ≠ updatedContent →
  step net now (SaveContent updatedContent true) (mount a cache0)
  = mkPanel (setArtifactContent persisted a) cache0
      (mkVersion (historyLength docs - 1) Edit) (Some d) true
      (Some (updatedContent, debounceDelay)) [].
Proof.
  intros Hid Hst Hc Hl Hd Hdiff.
  rewrite (mount_fetched_history a cache0 docs d) by done.
  rewrite Hd. simpl.
  assert (∀ p, document p = Some d →
            handle net now (SaveContent updatedContent true) p
            = debouncedHandleContentChange updatedContent (setIsContentDirty true p))
    as Hh.
  { intros p Hp. unfold handle, saveContent. rewrite Hp, Hd.
    by rewrite bool_decide_eq_true_2 by congruence. }
  rewrite step_keeps_documents; by rewrite Hh.
Qed.

(** C2 (amended): a panel mounted over an absent or empty history ignores
    the edit: the flag stays false, nothing is posted and the history stays
    empty.  Mounted over a fetched history whose latest record has non-empty
    content other than the edit, the edit raises the flag and posts nothing
    yet; when the debounce delay has passed and the POST is fulfilled,
    exactly one request went out, carrying the edited content, the cached
    history is one record longer and the flag is down. *)
Theorem edit_then_debounce_writes_once
  (a : UIArtifact) (cache0 : gmap string (list Document))
  (now now' : Z) (updatedContent : string) :
  let p0 := mount a cache0 in
  let p1 := step Fulfilled now (SaveContent updatedContent true) p0 in
  let p2 := step Fulfilled now' (Elapse debounceDelay) p1 in
  (cache0 !! documentKey (documentId a) = None
   ∨ cache0 !! documentKey (documentId a) = Some [] →
   isContentDirty p1 = false ∧ requests p2 = [] ∧ cachedLength p2 = 0
   ∧ isContentDirty p2 = false)
  ∧ (∀ docs d persisted,
       documentId a ≠ "init" → status a ≠ Streaming →
       cache0 !! documentKey (documentId a) = Some docs → last docs = Some d →
       content d = Some persisted → persisted ≠ "" → persisted ≠ updatedContent →
       isContentDirty p1 = true ∧ requests p1 = []
       ∧ requests p2 = [writeRequest a updatedContent]
       ∧ bodyContent (writeRequest a updatedContent) = updatedContent
       ∧ cachedHistory p2 = Some (docs ++ [newDocument d updatedContent now'])
       ∧ cachedLength p2 = historyLength docs + 1
       ∧ isContentDirty p2 = false).
Proof.
  intros p0 p1 p2. split.
  - intros Hc.
    assert (p1 = p0) as H1.
    { unfold p1, p0. rewrite (mount_empty_history a cache0 Hc).
      unfold step. simpl. by rewrite bool_decide_eq_true_2. }
    assert (p2 = p0) as H2
      by apply (edit_on_empty_history_is_ignored a cache0 _ _ _ _ _ _ _ Hc).
    rewrite H1, H2. unfold p0. rewrite (mount_empty_history a cache0 Hc).
    unfold cachedLength, cachedHistory. simpl.
    by destruct Hc as [->| ->].
  - intros docs d persisted Hid Hst Hc Hl Hd Hne Hdiff.
    unfold p2, p1, p0.
    rewrite (edit_after_mount a cache0 _ _ _ persisted docs d) by done.
    destruct (flush_after_edit a cache0 now' updatedContent persisted docs d
                (mkVersion (historyLength docs - 1) Edit) Hid Hst Hc Hl Hd Hne Hdiff)
      as (Hr & Hh & Hf).
    do 2 (split; [reflexivity|]).
    split; [exact Hr|]. split; [reflexivity|]. split; [exact Hh|].
    split; [|exact Hf].
    unfold cachedLength. rewrite Hh. apply historyLength_snoc.
Qed.

(** ** The chat component's query effect *)

Section QueryEffect.

Import Chat.

Variable id : string.

(** Once the flag is set, no render pass sends anything or touches the
    address. *)
Lemma queryEffect_consumed (query : option string) (s : Session) :
  hasAppendedQuery s = true → queryEffect id query s = s.
Proof.
  intros Hs. unfold queryEffect. destruct query as [q|]; [|reflexivity].
  by rewrite Hs, andb_false_r.
Qed.

Lemma renders_consumed (queries : list (option string)) (s : Session) :
  hasAppendedQuery s = true → renders id queries s = s.
Proof.
  intros Hs. induction queries as [|query queries IH]; [reflexivity|].
  unfold renders in *. simpl. by rewrite queryEffect_consumed.
Qed.

(** A pass that reads a non-empty query with the flag down sends it. *)
Lemma queryEffect_fresh (q : string) (s : Session) :
  q ≠ "" → hasAppendedQuery s = false →
  queryEffect id (Some q) s
  = mkSession true ("/chat/" +:+ id) (sent s ++ [userTurn q]).
Proof.
  intros Hq Hs. unfold queryEffect, truthy.
  by rewrite Hs, bool_decide_eq_true_2.
Qed.

(** A pass either leaves the session alone or sends one turn and sets the
    flag. *)
Lemma queryEffect_cases (query : option string) (s : Session) :
  queryEffect id query s = s
  ∨ hasAppendedQuery s = false
    ∧ hasAppendedQuery (queryEffect id query s) = true
    ∧ length (sent (queryEffect id query s)) = S (length (sent s)).
Proof.
  unfold queryEffect. destruct query as [q|]; [|by left].
  destruct (truthy q); [|by left].
  destruct (hasAppendedQuery s) eqn:Hs; [by left|].
  right. simpl. rewrite length_app. simpl. split; [done|]. split; [done | lia].
Qed.

(** From a fresh mount, any number of passes sends at most one turn. *)
Lemma renders_send_at_most_once (queries : list (option string)) (href : string) :
  (length (sent (renders id queries (mounted href))) ≤ 1)%nat.
Proof.
  assert (∀ s, hasAppendedQuery s = false →
            (length (sent (renders id queries s)) ≤ S (length (sent s)))%nat) as Hgen.
  { induction queries as [|query queries IH]; intros s Hs; [simpl; lia|].
    change (renders id (query :: queries) s)
      with (renders id queries (queryEffect id query s)).
    destruct (queryEffect_cases query s) as [->|(_ & Hset & Hlen)].
    - by apply IH.
    - rewrite renders_consumed by done. lia. }
  apply (Hgen (mounted href)). reflexivity.
Qed.

End QueryEffect.

(** C5: on a fresh mount whose render reads a non-empty query, the pass sends
    exactly one turn, of role user and with the query's text as its only
    part, sets the flag and replaces the address by the chat's own, without
    the parameter; whatever later passes read, nothing more is sent.  From
    a fresh mount no sequence of passes sends more than one turn. *)
Theorem query_is_sent_once
  (id href q : string) (later : list (option string)) :
  q ≠ "" →
  let s1 := Chat.queryEffect id (Some q) (Chat.mounted href) in
  Chat.sent s1 = [Chat.mkChatMessage Chat.User [Chat.TextPart q]]
  ∧ Chat.hasAppendedQuery s1 = true
  ∧ Chat.location s1 = "/chat/" +:+ id
  ∧ Chat.renders id later s1 = s1
  ∧ Chat.sent (Chat.renders id (Some q :: later) (Chat.mounted href))
    = [Chat.mkChatMessage Chat.User [Chat.TextPart q]]
  ∧ (∀ queries,
       (length (Chat.sent (Chat.renders id queries (Chat.mounted href))) ≤ 1)%nat).
Proof.
  intros Hq s1.
  assert (s1 = Chat.mkSession true ("/chat/" +:+ id)
                 [Chat.mkChatMessage Chat.User [Chat.TextPart q]])
    as H1 by by apply queryEffect_fresh.
  assert (Chat.renders id later s1 = s1) as Hlater
    by (apply renders_consumed; by rewrite H1).
  split; [by rewrite H1|]. split; [by rewrite H1|]. split; [by rewrite H1|].
  split; [exact Hlater|].
  split.
  - change (Chat.renders id (Some q :: later) (Chat.mounted href))
      with (Chat.renders id later s1).
    by rewrite Hlater, H1.
  - intros queries. apply renders_send_at_most_once.
Qed.

(** A query parameter that is present but empty is falsy: it is not sent and
    the address is left alone. *)
Lemma empty_query_is_not_sent (id : string) (s : Chat.Session) :
  Chat.queryEffect id (Some "") s = s.
Proof. reflexivity. Qed.

(** * Instances *)

(** C3 on three revisions, from the latest one: three prev (the third is
    refused), next, toggle, latest, next (refused). *)
Lemma navigation_keeps_index_in_range_witness :
  indexInRange threeRevisions
    (navigate (Some threeRevisions) [Prev; Prev; Prev; Next; Toggle; Latest; Next]
       (mkVersion 2 Edit))
  ∧ handleVersionChange (Some threeRevisions) Prev (mkVersion 0 Diff) = mkVersion 0 Diff
  ∧ handleVersionChange (Some threeRevisions) Next
      (mkVersion (historyLength threeRevisions - 1) Diff)
    = mkVersion (historyLength threeRevisions - 1) Diff.
Proof.
  apply (navigation_keeps_index_in_range threeRevisions
           [Prev; Prev; Prev; Next; Toggle; Latest; Next] (mkVersion 2 Edit) Diff).
  unfold indexInRange, historyLength. simpl. lia.
Defined.

(** C9 at index 7 of a one-record history. *)
Lemma getDocumentContentById_defaults_to_empty_witness :
  getDocumentContentById (Some [draft]) 7 = "".
Proof.
  apply (getDocumentContentById_defaults_to_empty (Some [draft]) 7).
  right. left. exists [draft]. split; [reflexivity|].
  right. unfold historyLength. simpl. lia.
Defined.

(** C10 on a history whose only record has null content, with the flag up. *)
Lemma flush_with_nothing_persisted_drops_edit_witness :
  isContentDirty
    (handleContentChange Fulfilled 5 "hello"
       (essayPanel [revision None 0] (Some (revision None 0)) true)) = false
  ∧ issued (essayPanel [revision None 0] (Some (revision None 0)) true)
      (handleContentChange Fulfilled 5 "hello"
         (essayPanel [revision None 0] (Some (revision None 0)) true)) = []
  ∧ cachedHistory
      (handleContentChange Fulfilled 5 "hello"
         (essayPanel [revision None 0] (Some (revision None 0)) true))
    = Some [revision None 0].
Proof.
  apply (flush_with_nothing_persisted_drops_edit Fulfilled 5 "hello"
           (essayPanel [revision None 0] (Some (revision None 0)) true)
           [revision None 0]).
  - reflexivity.
  - right. exists (revision None 0). split; [reflexivity | left; reflexivity].
Defined.

(** C4 on a flush of "hello" over the history [draft]. *)
Lemma flush_write_appends_one_revision_witness :
  ∃ docs d docs' d',
    cachedHistory (essayPanel [draft] (Some draft) true) = Some docs
    ∧ last docs = Some d
    ∧ content d ≠ Some "hello"
    ∧ cachedHistory
        (handleContentChange Fulfilled 5 "hello" (essayPanel [draft] (Some draft) true))
      = Some docs'
    ∧ docs' = docs ++ [d']
    ∧ historyLength docs' = historyLength docs + 1
    ∧ last docs' = Some d'
    ∧ content d' = Some "hello".
Proof.
  apply (flush_write_appends_one_revision 5 "hello"
           (essayPanel [draft] (Some draft) true)).
  vm_compute. discriminate.
Defined.

(** C1 (amended) on flushes of "hello": over a history whose only record
    has null content, and over the history [draft]. *)
Lemma flush_writes_iff_content_differs_witness :
  issued (essayPanel [revision None 0] (Some (revision None 0)) true)
    (handleContentChange Fulfilled 5 "hello"
       (essayPanel [revision None 0] (Some (revision None 0)) true)) = []
  ∧ ∃ r, issued (essayPanel [draft] (Some draft) true)
           (handleContentChange Fulfilled 5 "hello"
              (essayPanel [draft] (Some draft) true)) = [r]
      ∧ bodyTitle r = artifactTitle (artifact (essayPanel [draft] (Some draft) true))
      ∧ bodyContent r = "hello"
      ∧ bodyKind r = artifactKind (artifact (essayPanel [draft] (Some draft) true))
      ∧ (Fulfilled = Fulfilled →
         isContentDirty
           (handleContentChange Fulfilled 5 "hello"
              (essayPanel [draft] (Some draft) true)) = false).
Proof.
  split.
  - apply (proj1 (flush_writes_iff_content_differs Fulfilled 5 "hello"
                    (essayPanel [revision None 0] (Some (revision None 0)) true))).
    right. exists [revision None 0]. split; [reflexivity|].
    right. exists (revision None 0). split; [reflexivity | left; reflexivity].
  - apply (proj2 (proj2 (flush_writes_iff_content_differs Fulfilled 5 "hello"
                           (essayPanel [draft] (Some draft) true))
                    [draft] draft "draft" eq_refl eq_refl eq_refl
                    ltac:(discriminate))).
    discriminate.
Defined.

(** C1 as first stated fails twice.  Over a history whose latest record has
    empty content, a flush of "x" differs from it and yet posts nothing.
    Over the history [draft] with the flag up, a flush of "draft" is equal
    to the persisted content and the flag stays up. *)
Lemma flush_claim_counterexample :
  (content (revision (Some "") 0) ≠ Some "x"
   ∧ issued (essayPanel [revision (Some "") 0] (Some (revision (Some "") 0)) true)
       (handleContentChange Fulfilled 5 "x"
          (essayPanel [revision (Some "") 0] (Some (revision (Some "") 0)) true))
     = [])
  ∧ (content draft = Some "draft"
     ∧ isContentDirty (essayPanel [draft] (Some draft) true) = true
     ∧ isContentDirty
         (handleContentChange Fulfilled 5 "draft" (essayPanel [draft] (Some draft) true))
       = true).
Proof.
  split.
  - split; [discriminate | reflexivity].
  - repeat split.
Qed.

(** C2 as first stated fails: a panel mounted over an empty history does not
    raise the flag on the edit "hello", and after the debounce delay nothing
    has been posted and the history is still empty. *)
Lemma edit_on_empty_history_counterexample :
  cachedHistory (mount essay emptyCache) = Some []
  ∧ isContentDirty (step Fulfilled 10 (SaveContent "hello" true) (mount essay emptyCache))
    = false
  ∧ requests
      (step Fulfilled 2010 (Elapse debounceDelay)
         (step Fulfilled 10 (SaveContent "hello" true) (mount essay emptyCache)))
    = []
  ∧ cachedLength
      (step Fulfilled 2010 (Elapse debounceDelay)
         (step Fulfilled 10 (SaveContent "hello" true) (mount essay emptyCache)))
    = 0.
Proof. repeat split. Qed.

(** C2 (amended) on the edit "hello" of a panel mounted over [draft]. *)
Lemma edit_then_debounce_writes_once_witness :
  let p1 := step Fulfilled 10 (SaveContent "hello" true) (mount essay draftCache) in
  let p2 := step Fulfilled 2010 (Elapse debounceDelay) p1 in
  isContentDirty p1 = true ∧ requests p1 = []
  ∧ requests p2 = [writeRequest essay "hello"]
  ∧ bodyContent (writeRequest essay "hello") = "hello"
  ∧ cachedHistory p2 = Some ([draft] ++ [newDocument draft "hello" 2010])
  ∧ cachedLength p2 = historyLength [draft] + 1
  ∧ isContentDirty p2 = false.
Proof.
  apply (proj2 (edit_then_debounce_writes_once essay draftCache 10 2010 "hello")
           [draft] draft "draft").
  - discriminate.
  - discriminate.
  - reflexivity.
  - reflexivity.
  - reflexivity.
  - discriminate.
  - discriminate.
Defined.

(** C5 on chat "c1" opened at [/chat/c1?query=hi]; two more passes follow,
    one still reading "hi" and one reading nothing. *)
Lemma query_is_sent_once_witness :
  let s1 := Chat.queryEffect "c1" (Some "hi") (Chat.mounted "/chat/c1?query=hi") in
  Chat.sent s1 = [Chat.mkChatMessage Chat.User [Chat.TextPart "hi"]]
  ∧ Chat.hasAppendedQuery s1 = true
  ∧ Chat.location s1 = "/chat/" +:+ "c1"
  ∧ Chat.renders "c1" [Some "hi"; None] s1 = s1
  ∧ Chat.sent
      (Chat.renders "c1" (Some "hi" :: [Some "hi"; None])
         (Chat.mounted "/chat/c1?query=hi"))
    = [Chat.mkChatMessage Chat.User [Chat.TextPart "hi"]]
  ∧ (∀ queries,
       (length (Chat.sent (Chat.renders "c1" queries (Chat.mounted "/chat/c1?query=hi")))
        ≤ 1)%nat).
Proof.
  apply (query_is_sent_once "c1" "/chat/c1?query=hi" "hi" [Some "hi"; None]).
  discriminate.
Defined.

(** * Further properties *)

(** ** The effect on [documents] *)

Lemma documents_documentsEffect (p : Panel) :
  documents (documentsEffect p) = documents p.
Proof.
  unfold documentsEffect. destruct (documents p) as [docs|] eqn:Hd; [|exact Hd].
  case_bool_decide; [|exact Hd]. destruct (last docs); exact Hd.
Qed.

Lemma historyLength_last (docs : list Document) (d : Document) :
  last docs = Some d → historyLength docs > 0.
Proof. unfold historyLength. destruct docs; [done | simpl; lia]. Qed.

Lemma at_index_last (docs : list Document) (d : Document) :
  last docs = Some d → at_index docs (historyLength docs - 1) = Some d.
Proof.
  intros Hl. pose proof (historyLength_last docs d Hl) as Hpos.
  unfold at_index, historyLength in *.
  rewrite bool_decide_eq_true_2 by lia.
  rewrite last_lookup in Hl. rewrite <- Hl. f_equal. lia.
Qed.

Lemma documentsEffect_latest (p : Panel) (docs : list Document) (d : Document) :
  documents p = Some docs → last docs = Some d →
  document (documentsEffect p) = Some d
  ∧ currentVersionIndex (version (documentsEffect p)) = historyLength docs - 1
  ∧ artifactContent (artifact (documentsEffect p)) = default "" (content d)
  ∧ isCurrentVersion (documents (documentsEffect p)) (version (documentsEffect p)) = true
  ∧ displayedContent (documentsEffect p) = default "" (content d)
  ∧ getDocumentContentById (documents (documentsEffect p))
      (currentVersionIndex (version (documentsEffect p))) = default "" (content d)
  ∧ mode (version (documentsEffect p)) = mode (version p)
  ∧ isContentDirty (documentsEffect p) = isContentDirty p
  ∧ cache (documentsEffect p) = cache p
  ∧ requests (documentsEffect p) = requests p.
Proof.
  intros Hd Hl. pose proof (historyLength_last docs d Hl) as Hpos.
  unfold displayedContent. rewrite documents_documentsEffect, Hd.
  unfold documentsEffect. rewrite Hd, Hl.
  rewrite bool_decide_eq_true_2 by done. simpl.
  rewrite (bool_decide_eq_true_2 (historyLength docs > 0)) by done.
  rewrite bool_decide_eq_true_2 by done.
  rewrite (at_index_last docs d Hl).
  repeat split.
Qed.

(** X1: when the fetched history ends in a record [d], the effect selects
    it: [document] is [d], the index is the last one, the artifact's content
    and the content shown are [d]'s content (or "" when null), and the
    panel counts as showing the current version.  Mode, flag, cache and
    request log are not touched. *)
Theorem documentsEffect_selects_latest (p : Panel) (docs : list Document) (d : Document) :
  documents p = Some docs → last docs = Some d →
  document (documentsEffect p) = Some d
  ∧ currentVersionIndex (version (documentsEffect p)) = historyLength docs - 1
  ∧ artifactContent (artifact (documentsEffect p)) = default "" (content d)
  ∧ isCurrentVersion (documents (documentsEffect p)) (version (documentsEffect p)) = true
  ∧ displayedContent (documentsEffect p) = default "" (content d)
  ∧ getDocumentContentById (documents (documentsEffect p))
      (currentVersionIndex (version (documentsEffect p))) = default "" (content d)
  ∧ mode (version (documentsEffect p)) = mode (version p)
  ∧ isContentDirty (documentsEffect p) = isContentDirty p
  ∧ cache (documentsEffect p) = cache p
  ∧ requests (documentsEffect p) = requests p.
Proof. apply documentsEffect_latest. Qed.

(** X2: running the effect twice is running it once; on an absent or empty
    history it changes nothing. *)
Theorem documentsEffect_idempotent (p : Panel) :
  documentsEffect (documentsEffect p) = documentsEffect p
  ∧ (documents p = None ∨ documents p = Some [] → documentsEffect p = p).
Proof.
  split.
  - unfold documentsEffect at 1. rewrite documents_documentsEffect.
    destruct (documents p) as [docs|] eqn:Hd; [|reflexivity].
    case_bool_decide as Hpos; [|reflexivity].
    destruct (last docs) as [d|] eqn:Hl; [|reflexivity].
    unfold documentsEffect. rewrite Hd, Hl.
    rewrite bool_decide_eq_true_2 by done. reflexivity.
  - intros [Hd|Hd]; unfold documentsEffect; rewrite Hd; reflexivity.
Qed.

(** ** More on the flush *)

(** X3: a flush leaves the entries of other documents alone, and the
    history of its own document is afterwards the one before, possibly
    followed by one more record; it does not touch the artifact, the
    selected version, [document] or the debounce slot. *)
Theorem flush_only_extends_own_history
  (net : FetchOutcome) (now : Z) (updatedContent : string) (p : Panel) :
  (∀ k, k ≠ documentKey (documentId (artifact p)) →
        cache (handleContentChange net now updatedContent p) !! k = cache p !! k)
  ∧ (∃ added,
       cachedHistory (handleContentChange net now updatedContent p)
       = (λ docs, docs ++ added) <$> cachedHistory p
       ∧ (length added ≤ 1)%nat)
  ∧ artifact (handleContentChange net now updatedContent p) = artifact p
  ∧ version (handleContentChange net now updatedContent p) = version p
  ∧ document (handleContentChange net now updatedContent p) = document p
  ∧ pending (handleContentChange net now updatedContent p) = pending p.
Proof.
  destruct (cachedHistory p) as [docs|] eqn:Hc.
  2: { rewrite handleContentChange_no_cache by done. rewrite Hc.
       split; [done|]. split; [|done]. exists []. split; [done | simpl; lia]. }
  assert (∀ b, cachedHistory (setIsContentDirty b p) = Some (docs ++ [])) as Hsame
    by (intros b; by rewrite app_nil_r).
  destruct (last docs) as [d|] eqn:Hl.
  2: { rewrite (handleContentChange_nothing_persisted _ _ _ _ docs) by auto.
       split; [done|]. split; [|done].
       exists []. split; [by rewrite Hsame | simpl; lia]. }
  destruct (truthy_opt (content d)) eqn:Ht.
  2: { rewrite (handleContentChange_nothing_persisted _ _ _ _ docs) by eauto.
       split; [done|]. split; [|done].
       exists []. split; [by rewrite Hsame | simpl; lia]. }
  destruct (decide (content d = Some updatedContent)) as [Heq|Hne].
  { rewrite (handleContentChange_unchanged _ _ _ _ docs d) by done. rewrite Hc.
    split; [done|]. split; [|done].
    exists []. split; [simpl; by rewrite app_nil_r | simpl; lia]. }
  rewrite (handleContentChange_changed _ _ _ _ docs d) by done.
  destruct net.
  - split; [intros k Hk; simpl; by rewrite lookup_insert_ne|].
    split; [|done].
    exists [newDocument d updatedContent now]. split; [|simpl; lia].
    apply (cachedHistory_populateCache _ (setIsContentDirty false (post _ p))).
  - split; [done|]. split; [|done].
    exists []. split; [|simpl; lia]. simpl. by rewrite app_nil_r.
Qed.

(** X4: a flush posts nothing or exactly one request, and a posted request
    is a POST to the address of the panel's document with the proposed
    content, the artifact's title and the artifact's kind. *)
Theorem flush_posts_at_most_one_request
  (net : FetchOutcome) (now : Z) (updatedContent : string) (p : Panel) :
  requests (handleContentChange net now updatedContent p) = requests p
  ∨ ∃ r, requests (handleContentChange net now updatedContent p) = requests p ++ [r]
      ∧ url r = "/api/document?id=" +:+ documentId (artifact p)
      ∧ method r = "POST"
      ∧ bodyContent r = updatedContent
      ∧ bodyTitle r = artifactTitle (artifact p)
      ∧ bodyKind r = artifactKind (artifact p).
Proof.
  destruct (cachedHistory p) as [docs|] eqn:Hc.
  2: { left. by rewrite handleContentChange_no_cache. }
  destruct (last docs) as [d|] eqn:Hl.
  2: { left. by rewrite (handleContentChange_nothing_persisted _ _ _ _ docs) by auto. }
  destruct (truthy_opt (content d)) eqn:Ht.
  2: { left. by rewrite (handleContentChange_nothing_persisted _ _ _ _ docs) by eauto. }
  destruct (decide (content d = Some updatedContent)) as [Heq|Hne].
  { left. by rewrite (handleContentChange_unchanged _ _ _ _ docs d). }
  right. exists (writeRequest (artifact p) updatedContent).
  rewrite (handleContentChange_changed _ _ _ _ docs d) by done.
  split; [by destruct net | done].
Qed.

Lemma flush_of_latest_content
  (net : FetchOutcome) (now : Z) (updatedContent : string) (q : Panel)
  (l : list Document) (d : Document) :
  cachedHistory q = Some l → last l = Some d → content d = Some updatedContent →
  issued q (handleContentChange net now updatedContent q) = []
  ∧ cachedHistory (handleContentChange net now updatedContent q) = Some l.
Proof.
  intros Hc Hl Hd.
  destruct (truthy_opt (content d)) eqn:Ht.
  - rewrite (handleContentChange_unchanged _ _ _ _ l d) by done.
    split; [apply issued_refl | exact Hc].
  - rewrite (handleContentChange_nothing_persisted _ _ _ _ l) by eauto.
    split; [apply issued_setIsContentDirty | exact Hc].
Qed.

(** X5: flushing the same content again right after a fulfilled flush posts
    nothing and leaves the cached history as the first flush left it. *)
Theorem flush_again_posts_nothing
  (net' : FetchOutcome) (now now' : Z) (updatedContent : string) (p : Panel) :
  issued (handleContentChange Fulfilled now updatedContent p)
    (handleContentChange net' now' updatedContent
       (handleContentChange Fulfilled now updatedContent p)) = []
  ∧ cachedHistory
      (handleContentChange net' now' updatedContent
         (handleContentChange Fulfilled now updatedContent p))
    = cachedHistory (handleContentChange Fulfilled now updatedContent p).
Proof.
  destruct (cachedHistory p) as [docs|] eqn:Hc.
  2: { rewrite !handleContentChange_no_cache by done.
       split; [apply issued_refl | done]. }
  destruct (last docs) as [d|] eqn:Hl.
  2: { rewrite (handleContentChange_nothing_persisted Fulfilled _ _ _ docs) by auto.
       rewrite (handleContentChange_nothing_persisted _ _ _ _ docs); auto.
       split; [apply issued_setIsContentDirty | done]. }
  destruct (truthy_opt (content d)) eqn:Ht.
  2: { rewrite (handleContentChange_nothing_persisted Fulfilled _ _ _ docs) by eauto.
       rewrite (handleContentChange_nothing_persisted _ _ _ _ docs); eauto.
       split; [apply issued_setIsContentDirty | done]. }
  destruct (decide (content d = Some updatedContent)) as [Heq|Hne].
  { rewrite (handleContentChange_unchanged Fulfilled _ _ _ docs d) by done.
    rewrite Hc. by apply (flush_of_latest_content _ _ _ _ docs d). }
  rewrite (handleContentChange_changed Fulfilled _ _ _ docs d) by done.
  set (p' := populateCache _ _ _).
  assert (cachedHistory p' = Some (docs ++ [newDocument d updatedContent now])) as Hc'
    by apply (cachedHistory_populateCache _ (setIsContentDirty false (post _ p))).
  rewrite Hc'.
  apply (flush_of_latest_content _ _ _ _ _ (newDocument d updatedContent now));
    [exact Hc' | apply last_snoc | reflexivity].
Qed.

Lemma flush_without_persisted_content
  (net : FetchOutcome) (now : Z) (updatedContent : string) (p : Panel)
  (docs : list Document) :
  cachedHistory p = Some docs →
  (last docs = None
   ∨ ∃ d, last docs = Some d ∧ (content d = None ∨ content d = Some "")) →
  requests (handleContentChange net now updatedContent p) = requests p
  ∧ cachedHistory (handleContentChange net now updatedContent p) = Some docs.
Proof.
  intros Hc Hguard.
  rewrite (handleContentChange_nothing_persisted net now updatedContent p docs Hc);
    [by split|].
  destruct Hguard as [Hl|(d & Hl & Hd)]; [by left|].
  right. exists d. split; [exact Hl|]. by apply truthy_opt_false.
Qed.

(** X6: once the latest cached record is missing or has null or empty
    content, no sequence of flushes posts a request or changes the cached
    history, whatever contents are proposed. *)
Theorem flushes_without_persisted_content_post_nothing
  (fs : list (FetchOutcome * Z * string)) (p : Panel) (docs : list Document) :
  cachedHistory p = Some docs →
  (last docs = None
   ∨ ∃ d, last docs = Some d ∧ (content d = None ∨ content d = Some "")) →
  requests (flushes fs p) = requests p
  ∧ cachedHistory (flushes fs p) = Some docs.
Proof.
  intros Hc Hguard. revert p Hc.
  induction fs as [|[[net now] u] fs IH]; intros p Hc; [done|].
  change (flushes ((net, now, u) :: fs) p)
    with (flushes fs (handleContentChange net now u p)).
  destruct (flush_without_persisted_content net now u p docs Hc Hguard)
    as (Hr & Hh).
  destruct (IH _ Hh) as [IHr IHh]. by rewrite IHr, Hr.
Qed.

(** X7: after a fulfilled flush that wrote the empty content, no later
    flush posts a request or changes the cached history: the panel cannot
    save this document any more. *)
Theorem saving_empty_content_blocks_later_saves
  (now : Z) (fs : list (FetchOutcome * Z * string)) (p : Panel) :
  issued p (handleContentChange Fulfilled now "" p) ≠ [] →
  requests (flushes fs (handleContentChange Fulfilled now "" p))
  = requests (handleContentChange Fulfilled now "" p)
  ∧ cachedHistory (flushes fs (handleContentChange Fulfilled now "" p))
    = cachedHistory (handleContentChange Fulfilled now "" p).
Proof.
  intros Hw.
  destruct (handleContentChange_issued_inv _ _ _ _ Hw) as (docs & d & Hc & Hl & Ht & Hne).
  rewrite (handleContentChange_changed _ _ _ _ docs d Hc Hl Ht Hne).
  set (p' := populateCache _ _ _).
  assert (cachedHistory p' = Some (docs ++ [newDocument d "" now])) as Hc'
    by apply (cachedHistory_populateCache _ (setIsContentDirty false (post _ p))).
  rewrite Hc'. revert Hc'. generalize p'. clear p'.
  induction fs as [|[[net now'] u] fs IH]; intros q Hq; [done|].
  change (flushes ((net, now', u) :: fs) q)
    with (flushes fs (handleContentChange net now' u q)).
  destruct (flush_without_persisted_content net now' u q _ Hq) as (Hr & Hh).
  { right. exists (newDocument d "" now). split; [apply last_snoc | by right]. }
  destruct (IH _ Hh) as [IHr IHh]. by rewrite IHr, Hr.
Qed.

(** ** Runs of events *)

(** What a flush adds to the cache and to the request log. *)
Lemma handleContentChange_delta
  (net : FetchOutcome) (now : Z) (updatedContent : string) (p : Panel) :
  ∃ added posted,
    cachedHistory (handleContentChange net now updatedContent p)
    = (λ docs, docs ++ added) <$> cachedHistory p
    ∧ requests (handleContentChange net now updatedContent p) = requests p ++ posted
    ∧ (length added ≤ length posted)%nat
    ∧ (net = Fulfilled → content <$> added = (Some ∘ bodyContent) <$> posted)
    ∧ artifact (handleContentChange net now updatedContent p) = artifact p
    ∧ version (handleContentChange net now updatedContent p) = version p.
Proof.
  destruct (cachedHistory p) as [docs|] eqn:Hc.
  2: { rewrite handleContentChange_no_cache by done. rewrite Hc.
       exists [], []. rewrite app_nil_r. repeat split; simpl; done || lia. }
  destruct (last docs) as [d|] eqn:Hl.
  2: { rewrite (handleContentChange_nothing_persisted _ _ _ _ docs) by auto.
       exists [], []. simpl. rewrite !app_nil_r.
       repeat split; simpl; done || lia. }
  destruct (truthy_opt (content d)) eqn:Ht.
  2: { rewrite (handleContentChange_nothing_persisted _ _ _ _ docs) by eauto.
       exists [], []. simpl. rewrite !app_nil_r.
       repeat split; simpl; done || lia. }
  destruct (decide (content d = Some updatedContent)) as [Heq|Hne].
  { rewrite (handleContentChange_unchanged _ _ _ _ docs d) by done.
    exists [], []. simpl. rewrite !app_nil_r.
    repeat split; simpl; done || lia. }
  rewrite (handleContentChange_changed _ _ _ _ docs d) by done.
  destruct net.
  - exists [newDocument d updatedContent now], [writeRequest (artifact p) updatedContent].
    split; [apply (cachedHistory_populateCache _ (setIsContentDirty false (post _ p)))|].
    repeat split; simpl; done || lia.
  - exists [], [writeRequest (artifact p) updatedContent].
    simpl. rewrite app_nil_r.
    repeat split; simpl; done || lia.
Qed.

Lemma flush_posts_at_most_one_request_aux
  (net : FetchOutcome) (now : Z) (updatedContent : string) (p : Panel) :
  requests (handleContentChange net now updatedContent p) = requests p
  ∨ ∃ r, requests (handleContentChange net now updatedContent p) = requests p ++ [r]
      ∧ url r = documentKey (documentId (artifact p))
      ∧ method r = "POST".
Proof.
  destruct (handleContentChange_issued net now updatedContent p) as [Hi|Hi];
    unfold issued in Hi.
  - left.
    destruct (handleContentChange_delta net now updatedContent p)
      as (added & posted & _ & Hr & _).
    rewrite Hr, drop_app_length in Hi. by rewrite Hr, Hi, app_nil_r.
  - right. exists (writeRequest (artifact p) updatedContent).
    destruct (handleContentChange_delta net now updatedContent p)
      as (added & posted & _ & Hr & _).
    rewrite Hr, drop_app_length in Hi. by rewrite Hr, Hi.
Qed.

Lemma extends_same (ok : Prop) (p p' : Panel) :
  cache p' = cache p → requests p' = requests p →
  documentId (artifact p') = documentId (artifact p) →
  status (artifact p') = status (artifact p) →
  extends ok p p'.
Proof.
  intros Hc Hr Hid Hst. exists [], []. unfold cachedHistory.
  rewrite Hc, Hr, Hid, app_nil_r.
  split; [destruct (cache p !! _); simpl; by rewrite ?app_nil_r|].
  repeat split; simpl; done || lia.
Qed.

Lemma extends_trans (ok1 ok2 : Prop) (p p' p'' : Panel) :
  extends ok1 p p' → extends ok2 p' p'' → extends (ok1 ∧ ok2) p p''.
Proof.
  intros (a1 & r1 & Hc1 & Hr1 & Hl1 & Hm1 & Hu1 & Hid1 & Hst1)
         (a2 & r2 & Hc2 & Hr2 & Hl2 & Hm2 & Hu2 & Hid2 & Hst2).
  exists (a1 ++ a2), (r1 ++ r2).
  split.
  { rewrite Hc2, Hc1. destruct (cachedHistory p); simpl; by rewrite ?app_assoc. }
  split; [by rewrite Hr2, Hr1, app_assoc|].
  split; [rewrite !length_app; lia|].
  split; [intros [H1 H2]; by rewrite !fmap_app, Hm1, Hm2|].
  split; [apply Forall_app; split; [done | by rewrite <- Hid1]|].
  split; congruence.
Qed.

Lemma extends_weaken (ok ok' : Prop) (p p' : Panel) :
  (ok' → ok) → extends ok p p' → extends ok' p p'.
Proof.
  intros Hok (a & r & Hc & Hr & Hl & Hm & Hrest).
  exists a, r. repeat split; try done; try apply Hrest. auto.
Qed.

Lemma handleContentChange_extends
  (net : FetchOutcome) (now : Z) (updatedContent : string) (p : Panel) :
  extends (net = Fulfilled) p (handleContentChange net now updatedContent p).
Proof.
  destruct (handleContentChange_delta net now updatedContent p)
    as (added & posted & Hc & Hr & Hl & Hm & Ha & _).
  exists added, posted. rewrite Ha. repeat split; try done.
  destruct (flush_posts_at_most_one_request_aux net now updatedContent p)
    as [Hsame|(r & Hone & Hurl & Hmeth)].
  - rewrite Hsame in Hr. rewrite <- (app_nil_r (requests p)) in Hr at 1.
    apply app_inv_head in Hr. by subst posted.
  - rewrite Hone in Hr. apply app_inv_head in Hr. subst posted.
    by repeat constructor.
Qed.

Lemma extends_after_setter (ok : Prop) (p q r : Panel) :
  cache q = cache p → requests q = requests p → artifact q = artifact p →
  extends ok q r → extends ok p r.
Proof.
  intros Hc Hr Ha (added & posted & H1 & H2 & H3 & H4 & H5 & H6 & H7).
  exists added, posted. unfold cachedHistory in *. rewrite Hc, Hr, Ha in *.
  by repeat split.
Qed.

Lemma handle_extends (net : FetchOutcome) (now : Z) (ev : Event) (p : Panel) :
  extends (net = Fulfilled) p (handle net now ev p).
Proof.
  destruct ev as [updatedContent debounce|ms|type]; simpl.
  - unfold saveContent. destruct (document p) as [d|]; [|by apply extends_same].
    case_bool_decide; [|by apply extends_same].
    destruct debounce; [by apply extends_same|].
    apply (extends_after_setter _ p (setIsContentDirty true p)); try done.
    apply handleContentChange_extends.
  - unfold elapse. destruct (pending p) as [[updatedContent remaining]|];
      [|by apply extends_same].
    case_bool_decide; [|by apply extends_same].
    apply (extends_after_setter _ p (setPending None p)); try done.
    apply handleContentChange_extends.
  - by apply extends_same.
Qed.

Lemma documentsEffect_artifact (p : Panel) :
  documentId (artifact (documentsEffect p)) = documentId (artifact p)
  ∧ status (artifact (documentsEffect p)) = status (artifact p).
Proof.
  unfold documentsEffect. destruct (documents p) as [docs|]; [|done].
  case_bool_decide; [|done]. by destruct (last docs).
Qed.

Lemma step_extends (net : FetchOutcome) (now : Z) (ev : Event) (p : Panel) :
  extends (net = Fulfilled) p (step net now ev p).
Proof.
  unfold step. case_bool_decide; [apply handle_extends|].
  destruct (handle_extends net now ev p)
    as (added & posted & H1 & H2 & H3 & H4 & H5 & H6 & H7).
  destruct (documentsEffect_artifact (handle net now ev p)) as [Hid Hst].
  exists added, posted.
  rewrite documentsEffect_cachedHistory, documentsEffect_requests, Hid, Hst.
  by repeat split.
Qed.

(** What a run adds, with every POST settled inside the event that starts
    it. *)
Lemma run_extends (evs : list (FetchOutcome * Z * Event)) (p : Panel) :
  extends (Forall (λ e, e.1.1 = Fulfilled) evs) p (run evs p).
Proof.
  revert p. induction evs as [|[[net now] ev] evs IH]; intros p.
  { by apply extends_same. }
  change (run ((net, now, ev) :: evs) p) with (run evs (step net now ev p)).
  apply (extends_weaken (net = Fulfilled ∧ Forall (λ e, e.1.1 = Fulfilled) evs)).
  { intros Hall. by apply Forall_cons in Hall. }
  apply (extends_trans _ _ p (step net now ev p)); [apply step_extends | apply IH].
Qed.

(** X8: over any run of edits, ticks of the clock and navigation clicks,
    the request log only grows at its end, every request added is a POST to
    the document's address, and the cached history of the document at the
    end is the one at the start followed by appended revisions, no more of
    them than requests were added. *)
Theorem run_only_appends
  (evs : list (FetchOutcome * Z * Event)) (p : Panel) :
  ∃ added posted,
    requests (run evs p) = requests p ++ posted
    ∧ Forall (λ r, url r = "/api/document?id=" +:+ documentId (artifact p)
                   ∧ method r = "POST") posted
    ∧ cachedHistory (run evs p) = (λ docs, docs ++ added) <$> cachedHistory p
    ∧ (length added ≤ length posted)%nat.
Proof.
  destruct (run_extends evs p) as (added & posted & Hc & Hr & Hl & _ & Hu & _).
  by exists added, posted.
Qed.

(** ** The selected index over runs *)

Lemma documents_of_cachedHistory (p : Panel) (docs : list Document) :
  documents p = Some docs →
  fetchEnabled p ∧ cachedHistory p = Some docs.
Proof.
  unfold documents, fetchEnabled, cachedHistory.
  destruct (historyKey_cases (artifact p)) as [[_ ->]|[Hon ->]]; [done|].
  by intros Hd.
Qed.

Lemma documentsEffect_index (q : Panel) (l : list Document) :
  documents q = Some l → l ≠ [] →
  documents (documentsEffect q) = Some l
  ∧ currentVersionIndex (version (documentsEffect q)) = historyLength l - 1.
Proof.
  intros Hd Hl. split; [by rewrite documents_documentsEffect|].
  unfold documentsEffect. rewrite Hd.
  assert (historyLength l > 0) as Hpos
    by (unfold historyLength; destruct l; [done | simpl; lia]).
  rewrite bool_decide_eq_true_2 by done.
  destruct (last l) as [d|] eqn:Hlast; [reflexivity|].
  apply last_None in Hlast. contradiction.
Qed.

Lemma handle_version (net : FetchOutcome) (now : Z) (ev : Event) (p : Panel) :
  version (handle net now ev p)
  = match ev with
    | ChangeVersion type => handleVersionChange (documents p) type (version p)
    | _ => version p
    end.
Proof.
  destruct ev as [updatedContent debounce|ms|type]; simpl; [| |reflexivity].
  - unfold saveContent. destruct (document p) as [d|]; [|done].
    case_bool_decide; [|done]. destruct debounce; [done|].
    by destruct (handleContentChange_delta net now updatedContent
                   (setIsContentDirty true p)) as (? & ? & _ & _ & _ & _ & _ & ->).
  - unfold elapse. destruct (pending p) as [[updatedContent remaining]|]; [|done].
    case_bool_decide; [|done].
    by destruct (handleContentChange_delta net now updatedContent
                   (setPending None p)) as (? & ? & _ & _ & _ & _ & _ & ->).
Qed.

Lemma step_wellSelected (net : FetchOutcome) (now : Z) (ev : Event) (p : Panel) :
  wellSelected p → wellSelected (step net now ev p).
Proof.
  intros (docs & Hd & Hin).
  destruct (documents_of_cachedHistory p docs Hd) as [[Hid Hst] Hc].
  destruct (handle_extends net now ev p)
    as (added & posted & Hc' & _ & _ & _ & _ & Hid' & Hst').
  assert (documents (handle net now ev p) = Some (docs ++ added)) as Hd'.
  { rewrite documents_enabled by congruence. by rewrite Hc', Hc. }
  unfold step. case_bool_decide as Hsame.
  - exists docs. split; [congruence|].
    rewrite handle_version. destruct ev; try done.
    rewrite Hd. by apply handleVersionChange_in_range.
  - assert (docs ++ added ≠ []) as Hne.
    { unfold indexInRange, historyLength in Hin. destruct docs; [simpl in Hin; lia|done]. }
    destruct (documentsEffect_index _ _ Hd' Hne) as [Hd'' Hidx].
    exists (docs ++ added). split; [done|].
    unfold indexInRange. rewrite Hidx.
    unfold historyLength. destruct (docs ++ added); [done | simpl; lia].
Qed.

(** X9: a panel whose selected index lies within the history its hook
    returned keeps that property over any run of edits, ticks of the clock
    and navigation clicks, whatever the outcome of the POSTs. *)
Theorem run_keeps_index_in_range
  (evs : list (FetchOutcome * Z * Event)) (p : Panel) :
  wellSelected p → wellSelected (run evs p).
Proof.
  revert p. induction evs as [|[[net now] ev] evs IH]; intros p Hp; [done|].
  change (run ((net, now, ev) :: evs) p) with (run evs (step net now ev p)).
  apply IH. by apply step_wellSelected.
Qed.

(** A panel mounted over a fetched history that is not empty selects its
    last revision. *)
Lemma mount_wellSelected (a : UIArtifact) (cache0 : gmap string (list Document))
  (docs : list Document) :
  documentId a ≠ "init" → status a ≠ Streaming →
  cache0 !! documentKey (documentId a) = Some docs → docs ≠ [] →
  wellSelected (mount a cache0).
Proof.
  intros Hid Hst Hc Hne.
  destruct (last docs) as [d|] eqn:Hl; [|by apply last_None in Hl].
  rewrite (mount_fetched_history a cache0 docs d) by done.
  exists docs. split.
  - unfold documents. simpl. by rewrite historyKey_enabled.
  - unfold indexInRange. simpl. pose proof (historyLength_last docs d Hl). lia.
Qed.

(** ** Edits, the debounce and the clock *)

Section Edits.

Variables (d : Document) (persisted : string).

Hypothesis Hpersisted : content d = Some persisted.

Lemma persisted_truthy : persisted ≠ "" → truthy_opt (content d) = true.
Proof.
  intros Hne. rewrite Hpersisted. simpl. unfold truthy.
  by rewrite bool_decide_eq_true_2.
Qed.

(** A debounced edit that differs from [document] raises the flag and fills
    the slot. *)
Lemma step_debounced_edit (net : FetchOutcome) (now : Z) (u : string) (q : Panel) :
  document q = Some d → persisted ≠ u →
  step net now (SaveContent u true) q
  = setPending (Some (u, debounceDelay)) (setIsContentDirty true q).
Proof.
  intros Hdoc Hu.
  assert (handle net now (SaveContent u true) q
          = setPending (Some (u, debounceDelay)) (setIsContentDirty true q)) as Hh.
  { simpl. unfold saveContent. rewrite Hdoc, Hpersisted.
    by rewrite bool_decide_eq_true_2 by congruence. }
  rewrite step_keeps_documents; by rewrite Hh.
Qed.


(** An edit equal to [document]'s content is ignored. *)
Lemma step_edit_of_persisted (net : FetchOutcome) (now : Z) (debounce : bool) (q : Panel) :
  document q = Some d →
  step net now (SaveContent persisted debounce) q = q.
Proof.
  intros Hdoc.
  assert (handle net now (SaveContent persisted debounce) q = q) as Hh.
  { simpl. unfold saveContent. rewrite Hdoc, Hpersisted.
    by rewrite bool_decide_eq_false_2 by (by intros ?). }
  rewrite step_keeps_documents; by rewrite Hh.
Qed.

(** The clock moves while the slot is not due. *)
Lemma step_tick_early (net : FetchOutcome) (now ms remaining : Z) (u : string)
  (q : Panel) :
  pending q = Some (u, remaining) → ms < remaining →
  step net now (Elapse ms) q = setPending (Some (u, remaining - ms)) q.
Proof.
  intros Hp Hms.
  assert (handle net now (Elapse ms) q = setPending (Some (u, remaining - ms)) q) as Hh.
  { simpl. unfold elapse. rewrite Hp. by rewrite bool_decide_eq_false_2 by lia. }
  rewrite step_keeps_documents; by rewrite Hh.
Qed.

(** The clock moves with an empty slot. *)
Lemma step_tick_idle (net : FetchOutcome) (now ms : Z) (q : Panel) :
  pending q = None → step net now (Elapse ms) q = q.
Proof.
  intros Hp.
  assert (handle net now (Elapse ms) q = q) as Hh
    by (simpl; unfold elapse; by rewrite Hp).
  rewrite step_keeps_documents; by rewrite Hh.
Qed.

Lemma run_ticks_idle (ts : list (FetchOutcome * Z * Z)) (q : Panel) :
  pending q = None → run (ticks ts) q = q.
Proof.
  intros Hp. induction ts as [|[[net now] ms] ts IH]; [done|].
  change (run (ticks ((net, now, ms) :: ts)) q)
    with (run (ticks ts) (step net now (Elapse ms) q)).
  by rewrite step_tick_idle.
Qed.

(** The slot comes due over a history whose latest content differs from the
    waiting edit: the POST goes out; fulfilled, the new revision is cached
    and selected; rejected, nothing else happens. *)
Lemma step_tick_due (net : FetchOutcome) (now ms remaining : Z) (u : string)
  (q : Panel) (l : list Document) (e : Document) :
  fetchEnabled q → cachedHistory q = Some l → last l = Some e →
  truthy_opt (content e) = true → content e ≠ Some u →
  pending q = Some (u, remaining) → remaining ≤ ms →
  step net now (Elapse ms) q
  = match net with
    | Rejected => post (writeRequest (artifact q) u) (setPending None q)
    | Fulfilled =>
        documentsEffect
          (populateCache (documentKey (documentId (artifact q)))
             (l ++ [newDocument e u now])
             (setIsContentDirty false
                (post (writeRequest (artifact q) u) (setPending None q))))
    end.
Proof.
  intros [Hid Hst] Hc Hl Ht Hne Hp Hms.
  assert (handle net now (Elapse ms) q
          = handleContentChange net now u (setPending None q)) as Hh
    by (simpl; by apply (elapse_due _ _ _ remaining)).
  rewrite (handleContentChange_changed _ _ _ _ l e) in Hh by done.
  destruct net.
  - rewrite step_changes_documents; rewrite Hh; [done|].
    rewrite !documents_enabled by done.
    rewrite (cachedHistory_populateCache _
               (setIsContentDirty false (post _ (setPending None q)))).
    rewrite Hc. intros [= Heq]. by apply snoc_ne in Heq.
  - rewrite step_keeps_documents; by rewrite Hh.
Qed.

End Edits.

Lemma documentsEffect_pending (p : Panel) :
  pending (documentsEffect p) = pending p.
Proof.
  unfold documentsEffect. destruct (documents p) as [docs|]; [|reflexivity].
  case_bool_decide; [|reflexivity]. by destruct (last docs).
Qed.



Lemma cachedHistory_populateCache_key (k : string) (data : list Document) (q : Panel) :
  k = documentKey (documentId (artifact q)) →
  cachedHistory (populateCache k data q) = Some data.
Proof. intros ->. apply cachedHistory_populateCache. Qed.

(** X10: when the POST of a debounced edit is rejected, the request has
    gone out but the cached history is as before, the header keeps showing
    "Saving changes...", and no later tick of the clock changes anything:
    nothing retries the write. *)
Theorem rejected_write_leaves_saving
  (p : Panel) (docs : list Document) (d : Document) (persisted u : string)
  (net : FetchOutcome) (now now' : Z) (ts : list (FetchOutcome * Z * Z)) :
  settledOn docs d p → content d = Some persisted → persisted ≠ "" → persisted ≠ u →
  header (step Rejected now' (Elapse debounceDelay) (step net now (SaveContent u true) p))
  = SavingChanges
  ∧ requests (step Rejected now' (Elapse debounceDelay)
                (step net now (SaveContent u true) p))
    = requests p ++ [writeRequest (artifact p) u]
  ∧ cachedHistory (step Rejected now' (Elapse debounceDelay)
                     (step net now (SaveContent u true) p))
    = Some docs
  ∧ run (ticks ts) (step Rejected now' (Elapse debounceDelay)
                      (step net now (SaveContent u true) p))
    = step Rejected now' (Elapse debounceDelay) (step net now (SaveContent u true) p).
Proof.
  intros (Hon & Hc & Hl & Hdoc & Hp) Hd Hne Hu.
  rewrite (step_debounced_edit d persisted Hd) by done.
  rewrite (step_tick_due Rejected now' debounceDelay debounceDelay u _ docs d);
    try done.
  - split; [reflexivity|]. split; [reflexivity|]. split; [exact Hc|].
    by apply run_ticks_idle.
  - by apply (persisted_truthy d persisted).
  - rewrite Hd. congruence.
Qed.

(** X11: when the POST of a debounced edit is fulfilled, the new revision
    becomes [document], the index moves to it, the artifact's content and
    the content shown are the edit, the header shows the time the revision
    was made locally, and the slot is empty. *)
Theorem fulfilled_write_selects_new_revision
  (p : Panel) (docs : list Document) (d : Document) (persisted u : string)
  (net : FetchOutcome) (now now' : Z) :
  settledOn docs d p → content d = Some persisted → persisted ≠ "" → persisted ≠ u →
  document (step Fulfilled now' (Elapse debounceDelay) (step net now (SaveContent u true) p))
  = Some (newDocument d u now')
  ∧ currentVersionIndex
      (version (step Fulfilled now' (Elapse debounceDelay)
                  (step net now (SaveContent u true) p)))
    = historyLength docs
  ∧ artifactContent
      (artifact (step Fulfilled now' (Elapse debounceDelay)
                   (step net now (SaveContent u true) p)))
    = u
  ∧ displayedContent (step Fulfilled now' (Elapse debounceDelay)
                        (step net now (SaveContent u true) p))
    = u
  ∧ header (step Fulfilled now' (Elapse debounceDelay)
              (step net now (SaveContent u true) p))
    = UpdatedAt now'
  ∧ pending (step Fulfilled now' (Elapse debounceDelay)
               (step net now (SaveContent u true) p))
    = None.
Proof.
  intros (Hon & Hc & Hl & Hdoc & Hp) Hd Hne Hu.
  rewrite (step_debounced_edit d persisted Hd) by done.
  rewrite (step_tick_due Fulfilled now' debounceDelay debounceDelay u _ docs d);
    try done.
  2: { by apply (persisted_truthy d persisted). }
  2: { rewrite Hd. congruence. }
  set (q := populateCache _ _ _).
  assert (documents q = Some (docs ++ [newDocument d u now'])) as Hq.
  { rewrite documents_enabled by apply Hon.
    by apply cachedHistory_populateCache_key. }
  destruct (documentsEffect_latest q _ (newDocument d u now') Hq (last_snoc _ _))
    as (H1 & H2 & H3 & _ & H5 & _ & _ & H8 & _).
  rewrite historyLength_snoc in H2.
  split; [exact H1|]. split; [rewrite H2; lia|]. split; [exact H3|].
  split; [exact H5|].
  split; [unfold header; by rewrite H8, H1|].
  by rewrite documentsEffect_pending.
Qed.

(** X12: a second debounced edit made before the delay of the first has
    passed replaces it and restarts the delay: nothing is posted by the
    second edit itself, nor by any tick shorter than the full delay after
    it; once the full delay has passed after the second edit, in one tick
    or in two, exactly one request has gone out, carrying the second edit,
    and the one revision appended holds the second edit. *)
Theorem second_edit_supersedes_first
  (p : Panel) (docs : list Document) (d : Document) (persisted u1 u2 : string)
  (net1 net2 net3 : FetchOutcome) (now1 now2 now3 now4 gap : Z) :
  settledOn docs d p → content d = Some persisted → persisted ≠ "" →
  persisted ≠ u1 → persisted ≠ u2 → gap < debounceDelay →
  let p3 := step net3 now3 (SaveContent u2 true)
              (step net2 now2 (Elapse gap) (step net1 now1 (SaveContent u1 true) p)) in
  requests p3 = requests p
  ∧ (∀ net now ms, ms < debounceDelay →
       requests (step net now (Elapse ms) p3) = requests p)
  ∧ (∀ net now ms, ms < debounceDelay →
       requests (step Fulfilled now4 (Elapse (debounceDelay - ms))
                   (step net now (Elapse ms) p3))
       = requests p ++ [writeRequest (artifact p) u2])
  ∧ requests (step Fulfilled now4 (Elapse debounceDelay) p3)
    = requests p ++ [writeRequest (artifact p) u2]
  ∧ cachedHistory (step Fulfilled now4 (Elapse debounceDelay) p3)
    = Some (docs ++ [newDocument d u2 now4]).
Proof.
  intros (Hon & Hc & Hl & Hdoc & Hp) Hd Hne Hu1 Hu2 Hgap p3.
  pose proof (persisted_truthy d persisted Hd Hne) as Ht.
  assert (content d ≠ Some u2) as Hcd by (rewrite Hd; congruence).
  assert (p3 = setPending (Some (u2, debounceDelay))
                 (setIsContentDirty true
                    (setPending (Some (u1, debounceDelay - gap))
                       (setPending (Some (u1, debounceDelay))
                          (setIsContentDirty true p))))) as H3.
  { unfold p3.
    rewrite (step_debounced_edit d persisted Hd _ _ u1) by done.
    rewrite (step_tick_early _ _ gap debounceDelay u1) by done.
    by rewrite (step_debounced_edit d persisted Hd _ _ u2). }
  clearbody p3. subst p3.
  split; [reflexivity|].
  split.
  { intros net now ms Hms.
    by rewrite (step_tick_early _ _ ms debounceDelay u2). }
  split.
  { intros net now ms Hms.
    rewrite (step_tick_early _ _ ms debounceDelay u2) by done.
    rewrite (step_tick_due Fulfilled now4 (debounceDelay - ms) (debounceDelay - ms)
               u2 _ docs d); try done.
    by rewrite documentsEffect_requests. }
  rewrite (step_tick_due Fulfilled now4 debounceDelay debounceDelay u2 _ docs d);
    try done.
  rewrite documentsEffect_requests, documentsEffect_cachedHistory.
  split; [reflexivity|].
  by apply cachedHistory_populateCache_key.
Qed.

(** X13: an edit back to the persisted content, made while a debounced edit
    is waiting, is ignored and does not cancel the waiting edit: when the
    delay has passed the waiting edit is posted and becomes the content of
    the artifact. *)
Theorem revert_does_not_cancel_pending_write
  (p : Panel) (docs : list Document) (d : Document) (persisted u1 : string)
  (net1 net2 net3 : FetchOutcome) (now1 now2 now3 now4 gap : Z) (debounce : bool) :
  settledOn docs d p → content d = Some persisted → persisted ≠ "" →
  persisted ≠ u1 → gap < debounceDelay →
  requests (step Fulfilled now4 (Elapse (debounceDelay - gap))
              (step net3 now3 (SaveContent persisted debounce)
                 (step net2 now2 (Elapse gap)
                    (step net1 now1 (SaveContent u1 true) p))))
  = requests p ++ [writeRequest (artifact p) u1]
  ∧ cachedHistory (step Fulfilled now4 (Elapse (debounceDelay - gap))
                     (step net3 now3 (SaveContent persisted debounce)
                        (step net2 now2 (Elapse gap)
                           (step net1 now1 (SaveContent u1 true) p))))
    = Some (docs ++ [newDocument d u1 now4])
  ∧ artifactContent
      (artifact (step Fulfilled now4 (Elapse (debounceDelay - gap))
                   (step net3 now3 (SaveContent persisted debounce)
                      (step net2 now2 (Elapse gap)
                         (step net1 now1 (SaveContent u1 true) p)))))
    = u1.
Proof.
  intros (Hon & Hc & Hl & Hdoc & Hp) Hd Hne Hu1 Hgap.
  rewrite (step_debounced_edit d persisted Hd _ _ u1) by done.
  rewrite (step_tick_early _ _ gap debounceDelay u1) by done.
  rewrite (step_edit_of_persisted d persisted Hd) by done.
  rewrite (step_tick_due Fulfilled now4 (debounceDelay - gap) (debounceDelay - gap)
             u1 _ docs d); try done.
  2: { by apply (persisted_truthy d persisted). }
  2: { rewrite Hd. congruence. }
  rewrite documentsEffect_requests, documentsEffect_cachedHistory.
  split; [reflexivity|].
  split; [by apply cachedHistory_populateCache_key|].
  set (q := populateCache _ _ _).
  assert (documents q = Some (docs ++ [newDocument d u1 now4])) as Hq.
  { rewrite documents_enabled by apply Hon.
    by apply cachedHistory_populateCache_key. }
  by destruct (documentsEffect_latest q _ (newDocument d u1 now4) Hq (last_snoc _ _))
    as (_ & _ & H3 & _).
Qed.



(** ** More on navigation *)

(** X15: inside the history, next undoes prev and prev undoes next. *)
Theorem prev_and_next_are_inverse (docs : list Document) (v : Version) :
  (0 < currentVersionIndex v ≤ historyLength docs - 1 →
   handleVersionChange (Some docs) Next (handleVersionChange (Some docs) Prev v) = v)
  ∧ (0 ≤ currentVersionIndex v < historyLength docs - 1 →
     handleVersionChange (Some docs) Prev (handleVersionChange (Some docs) Next v) = v).
Proof.
  destruct v as [i m]. simpl. split; intros Hi.
  - rewrite (bool_decide_eq_true_2 (i > 0)) by lia. simpl.
    rewrite bool_decide_eq_true_2 by lia. f_equal. lia.
  - rewrite (bool_decide_eq_true_2 (i < historyLength docs - 1)) by lia. simpl.
    rewrite bool_decide_eq_true_2 by lia. f_equal. lia.
Qed.

Lemma navigate_app (documents : option (list Document)) (ops ops' : list VersionChange)
  (v : Version) :
  navigate documents (ops ++ ops') v = navigate documents ops' (navigate documents ops v).
Proof. unfold navigate. apply foldl_app. Qed.

(** X16: [n] clicks on prev from an index within the history lead to the
    index [n] lower, stopping at 0; [n] clicks on next lead to the index [n]
    higher, stopping at the last one.  Neither changes the mode. *)
Theorem repeated_prev_and_next_clamp (docs : list Document) (n : nat) (v : Version) :
  indexInRange docs v →
  navigate (Some docs) (replicate n Prev) v
  = mkVersion (Z.max 0 (currentVersionIndex v - Z.of_nat n)) (mode v)
  ∧ navigate (Some docs) (replicate n Next) v
    = mkVersion (Z.min (historyLength docs - 1) (currentVersionIndex v + Z.of_nat n))
        (mode v).
Proof.
  unfold indexInRange. revert v.
  induction n as [|n IH]; intros [i m] Hi; simpl in *.
  { split; f_equal; lia. }
  split.
  - case_bool_decide.
    + destruct (IH (mkVersion (i - 1) m)) as [-> _]; simpl; [lia|]. f_equal. lia.
    + destruct (IH (mkVersion i m)) as [-> _]; simpl; [lia|]. f_equal. lia.
  - case_bool_decide.
    + destruct (IH (mkVersion (i + 1) m)) as [_ ->]; simpl; [lia|]. f_equal. lia.
    + destruct (IH (mkVersion i m)) as [_ ->]; simpl; [lia|]. f_equal. lia.
Qed.

(** X17: the version footer is rendered only over a fetched history that is
    not empty, at an index other than the last; there the content shown is
    the one read by index, and a click on latest brings the toolbar back. *)
Theorem version_footer_only_over_older_revision (p : Panel) :
  showsVersionFooter p = true →
  ∃ docs,
    documents p = Some docs ∧ docs ≠ []
    ∧ currentVersionIndex (version p) ≠ historyLength docs - 1
    ∧ showsToolbar p = false
    ∧ displayedContent p
      = getDocumentContentById (Some docs) (currentVersionIndex (version p))
    ∧ isCurrentVersion (Some docs)
        (handleVersionChange (Some docs) Latest (version p)) = true.
Proof.
  unfold showsVersionFooter, showsToolbar, displayedContent.
  destruct (documents p) as [docs|]; [|done]. simpl.
  case_bool_decide as Hpos; [|done].
  case_bool_decide as Hidx; [done|]. intros _.
  exists docs. split; [done|].
  split; [intros ->; unfold historyLength in Hpos; simpl in Hpos; lia|].
  split; [done|]. split; [done|]. split; [done|].
  rewrite (bool_decide_eq_true_2 (historyLength docs > 0)) by done.
  by rewrite bool_decide_eq_true_2.
Qed.

(** ** More on the chat component *)

Section QuerySequence.

Import Chat.

Variable id : string.

Lemma renders_cons (query : option string) (queries : list (option string)) (s : Session) :
  renders id (query :: queries) s = renders id queries (queryEffect id query s).
Proof. reflexivity. Qed.

Lemma renders_from_fresh (queries : list (option string)) (s : Session) :
  hasAppendedQuery s = false →
  sent (renders id queries s)
  = sent s ++ (userTurn <$> take 1 (filter (λ q : string, q ≠ "") (omap (λ o, o) queries)))
  ∧ (filter (λ q : string, q ≠ "") (omap (λ o, o) queries) = [] →
     renders id queries s = s)
  ∧ (filter (λ q : string, q ≠ "") (omap (λ o, o) queries) ≠ [] →
     location (renders id queries s) = "/chat/" +:+ id
     ∧ hasAppendedQuery (renders id queries s) = true).
Proof.
  revert s. induction queries as [|[q|] queries IH]; intros s Hs.
  - simpl. rewrite app_nil_r. by repeat split.
  - rewrite renders_cons. simpl omap.
    destruct (decide (q = "")) as [->|Hq].
    + rewrite filter_cons_False by (by intros ?).
      change (queryEffect id (Some "") s) with s. by apply IH.
    + rewrite filter_cons_True by done.
      rewrite (queryEffect_fresh id q s Hq Hs).
      rewrite renders_consumed by done. simpl. by repeat split.
  - rewrite renders_cons. simpl omap. change (queryEffect id None s) with s.
    by apply IH.
Qed.

End QuerySequence.

(** X18: over any sequence of render passes of a freshly mounted chat, what
    is sent is one turn of role user whose only part is the text of the
    first non-empty query read, and nothing when no
    pass reads a non-empty query; the address is replaced by the chat's own
    exactly when something was sent. *)
Theorem first_nonempty_query_is_the_one_sent
  (id href : string) (queries : list (option string)) :
  Chat.sent (Chat.renders id queries (Chat.mounted href))
  = (λ q, Chat.mkChatMessage Chat.User [Chat.TextPart q])
    <$> take 1 (filter (λ q : string, q ≠ "") (omap (λ o, o) queries))
  ∧ (filter (λ q : string, q ≠ "") (omap (λ o, o) queries) = [] →
     Chat.renders id queries (Chat.mounted href) = Chat.mounted href)
  ∧ (filter (λ q : string, q ≠ "") (omap (λ o, o) queries) ≠ [] →
     Chat.location (Chat.renders id queries (Chat.mounted href)) = "/chat/" +:+ id
     ∧ Chat.hasAppendedQuery (Chat.renders id queries (Chat.mounted href)) = true).
Proof. by apply (renders_from_fresh id queries (Chat.mounted href)). Qed.

Lemma receive_defined {A : Type} (dataParts parts : list A) :
  Transport.receive dataParts (Some parts) = Some (parts ++ dataParts).
Proof.
  revert parts. induction dataParts as [|x dataParts IH]; intros parts.
  - simpl. by rewrite app_nil_r.
  - change (Transport.receive (x :: dataParts) (Some parts))
      with (Transport.receive dataParts (Some (parts ++ [x]))).
    by rewrite IH, <- app_assoc.
Qed.

(** X19: data parts received on a stream that holds a list are appended in
    order.  On a stream that holds nothing the first part received only
    creates the empty list and is itself lost; the parts after it are
    kept. *)
Theorem receive_appends_but_drops_first_on_empty_stream
  {A : Type} (dataParts parts : list A) (first : A) :
  Transport.receive dataParts (Some parts) = Some (parts ++ dataParts)
  ∧ Transport.receive (first :: dataParts) None = Some dataParts
  ∧ Transport.receive [] (None : option (list A)) = None.
Proof.
  split; [apply receive_defined|]. split; [|reflexivity].
  change (Transport.receive (first :: dataParts) None)
    with (Transport.receive dataParts (Some [])).
  apply receive_defined.
Qed.

(** X20: in the body of a chat request every field of the caller's [body]
    is carried as given, also under the names id, message,
    selectedChatModel and selectedVisibilityType; a name the caller does not
    use holds the component's own field; and the component's own message
    field is the last message of the list, or nothing for an empty list. *)
Theorem request_body_prefers_caller_fields
  {J V : Type} (initialChatModel : string) (visibilityType : V)
  (messages : list Chat.ChatMessage) (id : string) (body : option (gmap string J)) :
  (∀ k j, default ∅ body !! k = Some j →
          Transport.prepareSendMessagesRequest J V initialChatModel visibilityType
            messages id body !! k = Some (Transport.FCaller j))
  ∧ (∀ k, default ∅ body !! k = None →
          Transport.prepareSendMessagesRequest J V initialChatModel visibilityType
            messages id body !! k
          = Transport.ownFields J V initialChatModel visibilityType messages id !! k)
  ∧ Transport.ownFields J V initialChatModel visibilityType messages id !! "message"
    = Some (Transport.FMessage (last messages))
  ∧ Transport.ownFields J V initialChatModel visibilityType messages id !! "id"
    = Some (Transport.FString id)
  ∧ Transport.ownFields J V initialChatModel visibilityType messages id
      !! "selectedChatModel"
    = Some (Transport.FString initialChatModel)
  ∧ Transport.ownFields J V initialChatModel visibilityType messages id
      !! "selectedVisibilityType"
    = Some (Transport.FVisibility visibilityType)
  ∧ dom (Transport.prepareSendMessagesRequest J V initialChatModel visibilityType
           messages id body)
    = dom (default ∅ body)
      ∪ {[ "id"; "message"; "selectedChatModel"; "selectedVisibilityType" ]}.
Proof.
  unfold Transport.prepareSendMessagesRequest.
  split.
  { intros k j Hk. apply lookup_union_Some_l. by rewrite lookup_fmap, Hk. }
  split.
  { intros k Hk. apply lookup_union_r. by rewrite lookup_fmap, Hk. }
  unfold Transport.ownFields.
  split; [by simplify_map_eq|]. split; [by simplify_map_eq|].
  split; [by simplify_map_eq|]. split; [by simplify_map_eq|].
  rewrite dom_union_L, dom_fmap_L, !dom_insert_L, dom_empty_L.
  set_solver.
Qed.

(** X21: the votes request is off exactly while the chat has fewer than two
    messages; once it is on, appending messages keeps it on with the same
    key. *)
Theorem votes_request_stays_on
  {M : Type} (id : string) (messages more : list M) :
  (Transport.votesKey id messages = None ↔ (length messages < 2)%nat)
  ∧ ((2 ≤ length messages)%nat →
     Transport.votesKey id (messages ++ more) = Some ("/api/vote?chatId=" +:+ id)
     ∧ Transport.votesKey id messages = Some ("/api/vote?chatId=" +:+ id)).
Proof.
  unfold Transport.votesKey. split.
  - case_bool_decide; split; (done || lia).
  - intros Hlen. rewrite !bool_decide_eq_true_2; [done | lia |].
    rewrite length_app. lia.
Qed.

(** ** The desktop layout *)

Section Callbacks.

Import Layout.

Lemma invokeAll_snoc (cs : list Callback) (c : Callback) (d : Desktop) :
  invokeAll (cs ++ [c]) d = invoke c (invokeAll cs d).
Proof. unfold invokeAll. by rewrite foldl_app. Qed.

Lemma invokeAll_expanded (cs : list Callback) (d : Desktop) :
  hasBeenExpanded (invokeAll cs d) = true
  ↔ hasBeenExpanded d = true ∨ Expand ∈ cs.
Proof.
  induction cs as [|c cs IH] using rev_ind.
  - simpl. split; [by left | intros [?|Hin]; [done | by apply elem_of_nil in Hin]].
  - rewrite invokeAll_snoc, elem_of_app, list_elem_of_singleton.
    destruct c; simpl.
    + rewrite IH. split; [intros [?|?]; auto | intros [?|[?|?]]; auto; done].
    + split; [auto | done].
Qed.

Lemma invokeAll_shared (cs : list Callback) (d : Desktop) :
  (Collapse ∈ cs → shared (invokeAll cs d) = hide (shared d))
  ∧ (Collapse ∉ cs → shared (invokeAll cs d) = shared d).
Proof.
  induction cs as [|c cs [IHin IHout]] using rev_ind.
  - split; [intros Hin; by apply elem_of_nil in Hin | done].
  - rewrite invokeAll_snoc, elem_of_app, list_elem_of_singleton.
    destruct (decide (Collapse ∈ cs)) as [Hin|Hout].
    + split; [intros _ | intros Hn; exfalso; auto].
      destruct c; simpl; by rewrite IHin.
    + destruct c; simpl.
      * split; [intros _; by rewrite IHout | intros Hn; exfalso; auto].
      * split; [intros [?|?]; done | intros _; by apply IHout].
Qed.

End Callbacks.

(** X22: the minimum size of the artifact pane is 50 until the first
    [onExpand] and 10 ever after, whatever callbacks follow; in both cases
    it fits under the pane's maximum and, with the chat pane's minimum,
    within the full width. *)
Theorem artifact_min_size_drops_once
  (cs : list Layout.Callback) (d : Layout.Desktop) :
  (Layout.hasBeenExpanded d = true ∨ Layout.Expand ∈ cs →
   Layout.getMinSize (Layout.invokeAll cs d) = 10)
  ∧ (Layout.hasBeenExpanded d = false ∧ Layout.Expand ∉ cs →
     Layout.getMinSize (Layout.invokeAll cs d) = 50)
  ∧ Layout.getMinSize (Layout.invokeAll cs d) ≤ Layout.getMinSize d
  ∧ Layout.getMinSize (Layout.invokeAll cs d) ≤ Layout.artifactMaxSize
  ∧ Layout.chatMinSize + Layout.getMinSize (Layout.invokeAll cs d) ≤ 100.
Proof.
  pose proof (invokeAll_expanded cs d) as Hiff.
  unfold Layout.getMinSize, Layout.artifactMaxSize, Layout.chatMinSize.
  destruct (Layout.hasBeenExpanded (Layout.invokeAll cs d)) eqn:He.
  - split; [done|]. split.
    + intros [Hd Hn]. destruct (proj1 Hiff eq_refl) as [?|?]; [congruence | done].
    + destruct (Layout.hasBeenExpanded d); lia.
  - split.
    + intros Hor. apply Hiff in Hor. done.
    + split; [done|]. destruct (Layout.hasBeenExpanded d) eqn:Hd; [|lia].
      assert (false = true) by (apply Hiff; by left). done.
Qed.

(** X23: after any callbacks the sidebar is open exactly when the last
    callback was [onCollapse]; once [onCollapse] has run the artifact is
    hidden and no callback shows it again; and no callback changes any
    other field of the artifact. *)
Theorem sidebar_follows_last_callback
  (cs : list Layout.Callback) (c : Layout.Callback) (d : Layout.Desktop) :
  Layout.sidebarOpen (Layout.invokeAll (cs ++ [c]) d)
  = match c with Layout.Collapse => true | Layout.Expand => false end
  ∧ (Layout.Collapse ∈ cs → isVisible (Layout.shared (Layout.invokeAll cs d)) = false)
  ∧ (Layout.Collapse ∉ cs →
     Layout.shared (Layout.invokeAll cs d) = Layout.shared d)
  ∧ documentId (Layout.shared (Layout.invokeAll cs d)) = documentId (Layout.shared d)
  ∧ artifactContent (Layout.shared (Layout.invokeAll cs d))
    = artifactContent (Layout.shared d)
  ∧ status (Layout.shared (Layout.invokeAll cs d)) = status (Layout.shared d).
Proof.
  destruct (invokeAll_shared cs d) as [Hin Hout].
  split; [rewrite invokeAll_snoc; by destruct c|].
  split; [intros H; by rewrite Hin|].
  split; [exact Hout|].
  destruct (decide (Layout.Collapse ∈ cs)) as [H|H];
    [rewrite (Hin H) | rewrite (Hout H)]; done.
Qed.

(** * Further instances *)

(** The panel over [draft] is at rest on its history. *)
Lemma essayPanel_settled :
  settledOn [draft] draft (essayPanel [draft] (Some draft) false).
Proof.
  split; [split; discriminate|]. split; [reflexivity|].
  split; [reflexivity|]. split; reflexivity.
Defined.

(** X1 on the panel over [threeRevisions], selected at index 0. *)
Lemma documentsEffect_selects_latest_witness :
  document
    (documentsEffect
       (mkPanel essay {[ documentKey "doc-1" := threeRevisions ]} (mkVersion 0 Diff)
          None true None []))
  = Some (revision (Some "C") 2).
Proof.
  refine (proj1 (documentsEffect_selects_latest
                   (mkPanel essay {[ documentKey "doc-1" := threeRevisions ]}
                      (mkVersion 0 Diff) None true None [])
                   threeRevisions (revision (Some "C") 2) _ _));
    reflexivity.
Defined.

(** X6 on a history whose only record has null content, with three flushes. *)
Lemma flushes_without_persisted_content_post_nothing_witness :
  requests
    (flushes [(Fulfilled, 1, "a"); (Rejected, 2, "b"); (Fulfilled, 3, "")]
       (essayPanel [revision None 0] (Some (revision None 0)) true))
  = [].
Proof.
  refine (proj1 (flushes_without_persisted_content_post_nothing
                   [(Fulfilled, 1, "a"); (Rejected, 2, "b"); (Fulfilled, 3, "")]
                   (essayPanel [revision None 0] (Some (revision None 0)) true)
                   [revision None 0] _ _)).
  - reflexivity.
  - right. exists (revision None 0). split; [reflexivity | left; reflexivity].
Defined.

(** X7 after the empty content was saved over [draft]. *)
Lemma saving_empty_content_blocks_later_saves_witness :
  requests
    (flushes [(Fulfilled, 6, "again"); (Fulfilled, 7, "and again")]
       (handleContentChange Fulfilled 5 "" (essayPanel [draft] (Some draft) true)))
  = requests (handleContentChange Fulfilled 5 "" (essayPanel [draft] (Some draft) true)).
Proof.
  refine (proj1 (saving_empty_content_blocks_later_saves 5
                   [(Fulfilled, 6, "again"); (Fulfilled, 7, "and again")]
                   (essayPanel [draft] (Some draft) true) _)).
  vm_compute. discriminate.
Defined.

(** X9 on a run that edits, navigates and lets the delay pass. *)
Lemma run_keeps_index_in_range_witness :
  wellSelected
    (run [(Fulfilled, 1, SaveContent "hello" true);
          (Fulfilled, 2, ChangeVersion Prev);
          (Fulfilled, 2001, Elapse debounceDelay);
          (Fulfilled, 2002, ChangeVersion Next)]
       (essayPanel threeRevisions (Some (revision (Some "C") 2)) false)).
Proof.
  apply (run_keeps_index_in_range
           [(Fulfilled, 1, SaveContent "hello" true);
            (Fulfilled, 2, ChangeVersion Prev);
            (Fulfilled, 2001, Elapse debounceDelay);
            (Fulfilled, 2002, ChangeVersion Next)]
           (essayPanel threeRevisions (Some (revision (Some "C") 2)) false)).
  exists threeRevisions. split; [reflexivity|].
  unfold indexInRange, essayPanel, historyLength. simpl. lia.
Defined.

(** X10 on the edit "hello" of the panel over [draft], POST rejected. *)
Lemma rejected_write_leaves_saving_witness :
  header
    (step Rejected 2001 (Elapse debounceDelay)
       (step Fulfilled 1 (SaveContent "hello" true)
          (essayPanel [draft] (Some draft) false)))
  = SavingChanges.
Proof.
  refine (proj1 (rejected_write_leaves_saving
                   (essayPanel [draft] (Some draft) false) [draft] draft "draft" "hello"
                   Fulfilled 1 2001 [] essayPanel_settled _ _ _));
    [reflexivity | discriminate | discriminate].
Defined.

(** X11 on the same edit, POST fulfilled. *)
Lemma fulfilled_write_selects_new_revision_witness :
  document
    (step Fulfilled 2001 (Elapse debounceDelay)
       (step Fulfilled 1 (SaveContent "hello" true)
          (essayPanel [draft] (Some draft) false)))
  = Some (newDocument draft "hello" 2001).
Proof.
  refine (proj1 (fulfilled_write_selects_new_revision
                   (essayPanel [draft] (Some draft) false) [draft] draft "draft" "hello"
                   Fulfilled 1 2001 essayPanel_settled _ _ _));
    [reflexivity | discriminate | discriminate].
Defined.

(** X12 on the edits "he" and, 500 ms later, "hello": 1500 ms after the
    second edit nothing has been posted. *)
Lemma second_edit_supersedes_first_witness :
  requests
    (step Fulfilled 2001 (Elapse 1500)
       (step Fulfilled 501 (SaveContent "hello" true)
          (step Fulfilled 501 (Elapse 500)
             (step Fulfilled 1 (SaveContent "he" true)
                (essayPanel [draft] (Some draft) false)))))
  = requests (essayPanel [draft] (Some draft) false).
Proof.
  refine (proj1 (proj2 (second_edit_supersedes_first
                   (essayPanel [draft] (Some draft) false) [draft] draft "draft"
                   "he" "hello" Fulfilled Fulfilled Fulfilled 1 501 501 2501 500
                   essayPanel_settled _ _ _ _ _)) Fulfilled 2001 1500 _);
    [reflexivity | discriminate | discriminate | discriminate | reflexivity
    | reflexivity].
Defined.

(** X13 on the edit "hello" taken back 500 ms later. *)
Lemma revert_does_not_cancel_pending_write_witness :
  requests
    (step Fulfilled 2001 (Elapse (debounceDelay - 500))
       (step Fulfilled 501 (SaveContent "draft" true)
          (step Fulfilled 501 (Elapse 500)
             (step Fulfilled 1 (SaveContent "hello" true)
                (essayPanel [draft] (Some draft) false)))))
  = requests (essayPanel [draft] (Some draft) false) ++ [writeRequest essay "hello"].
Proof.
  refine (proj1 (revert_does_not_cancel_pending_write
                   (essayPanel [draft] (Some draft) false) [draft] draft "draft"
                   "hello" Fulfilled Fulfilled Fulfilled 1 501 501 2001 500 true
                   essayPanel_settled _ _ _ _));
    [reflexivity | discriminate | discriminate | reflexivity].
Defined.


(** X16 on five clicks from index 1 of three revisions. *)
Lemma repeated_prev_and_next_clamp_witness :
  navigate (Some threeRevisions) (replicate 5 Prev) (mkVersion 1 Diff)
  = mkVersion (Z.max 0 (1 - Z.of_nat 5)) Diff
  ∧ navigate (Some threeRevisions) (replicate 5 Next) (mkVersion 1 Diff)
    = mkVersion (Z.min (historyLength threeRevisions - 1) (1 + Z.of_nat 5)) Diff.
Proof.
  apply (repeated_prev_and_next_clamp threeRevisions 5 (mkVersion 1 Diff)).
  unfold indexInRange, historyLength. simpl. lia.
Defined.

(** X17 on the panel over [threeRevisions], selected at index 0. *)
Lemma version_footer_only_over_older_revision_witness :
  ∃ docs,
    documents (mkPanel essay {[ documentKey "doc-1" := threeRevisions ]}
                 (mkVersion 0 Diff) None false None [])
    = Some docs
    ∧ docs ≠ []
    ∧ currentVersionIndex
        (version (mkPanel essay {[ documentKey "doc-1" := threeRevisions ]}
                    (mkVersion 0 Diff) None false None []))
      ≠ historyLength docs - 1
    ∧ showsToolbar (mkPanel essay {[ documentKey "doc-1" := threeRevisions ]}
                      (mkVersion 0 Diff) None false None [])
      = false
    ∧ displayedContent (mkPanel essay {[ documentKey "doc-1" := threeRevisions ]}
                          (mkVersion 0 Diff) None false None [])
      = getDocumentContentById (Some docs)
          (currentVersionIndex
             (version (mkPanel essay {[ documentKey "doc-1" := threeRevisions ]}
                         (mkVersion 0 Diff) None false None [])))
    ∧ isCurrentVersion (Some docs)
        (handleVersionChange (Some docs) Latest
           (version (mkPanel essay {[ documentKey "doc-1" := threeRevisions ]}
                       (mkVersion 0 Diff) None false None [])))
      = true.
Proof.
  apply (version_footer_only_over_older_revision
           (mkPanel essay {[ documentKey "doc-1" := threeRevisions ]}
              (mkVersion 0 Diff) None false None [])).
  reflexivity.
Defined.
